(** * Offline advisory service (services/geminiService.ts)

    A shallow embedding of the offline fallback layer of the dashboard:
    the template-filling helpers [getTopStateSummary],
    [getRecentWaterSummary], [getOfflineAssistantReply], the exported
    wrappers, and the mock report generator [getMockAdvancedReport].

    Conventions of the embedding.
    - A JavaScript string is a [string] (a sequence of 8-bit code units);
      template literals are concatenations.
    - An integral [number] (the counts [totalAffected] and [affected], the
      score) is a [Z]; a real-valued [number] (pH, turbidity, the value of
      [Math.random()], the coordinates) is the rational it denotes, a [Q],
      with exact comparisons; [NaN] and the infinities are not represented.
      The one arithmetic operation on such numbers, the product of the draw
      by 40, is taken exactly in [getMockAdvancedReport] and rounded as the
      multiplication of doubles rounds it in [getMockAdvancedReport64] (see
      [Binary64]); the two differ at the draws whose product rounding carries
      onto an integer.
    - A [Promise] is its settled state.
    - [Math.random()] is an explicit argument [rnd] of the functions that
      draw from it. *)

From Stdlib Require Import Bool Ascii String List ZArith QArith Qround Qpower Lia Lqa.
From Stdlib Require Import Permutation Sorted DecimalString.
Import ListNotations.

Local Open Scope string_scope.
Local Open Scope Z_scope.

(** ** Strings *)

Module JsString.

(** [c.toLowerCase()] on one code unit: the letters A..Z move to a..z, every
    other code unit is kept (code units above 127 are left as they are). *)
Definition lower_ascii (c : ascii) : ascii :=
  let n := nat_of_ascii c in
  if (Nat.leb 65 n && Nat.leb n 90)%bool then ascii_of_nat (n + 32) else c.

(** [String.prototype.toLowerCase] *)
Fixpoint toLowerCase (s : string) : string :=
  match s with
  | EmptyString => EmptyString
  | String c s' => String (lower_ascii c) (toLowerCase s')
  end.

(** [s.startsWith(p)] *)
Fixpoint startsWith (s p : string) : bool :=
  match p, s with
  | EmptyString, _ => true
  | String _ _, EmptyString => false
  | String a p', String b s' => (Ascii.eqb a b && startsWith s' p')%bool
  end.

(** [String.prototype.includes]: [sub] occurs in [s] at some position. *)
Fixpoint includes (s sub : string) : bool :=
  (startsWith s sub
   || match s with
      | EmptyString => false
      | String _ s' => includes s' sub
      end)%bool.

(** [s.endsWith(p)], by comparing the tails of [s]. *)
Fixpoint endsWith (s p : string) : bool :=
  (String.eqb s p
   || match s with
      | EmptyString => false
      | String _ s' => endsWith s' p
      end)%bool.

(** The relation that [includes] decides. *)
Definition Substring (sub s : string) : Prop :=
  exists pre post, s = pre ++ sub ++ post.

(** [String(n)] for an integral number: its decimal digits, with a leading
    minus sign below zero (the form JavaScript prints for integers of
    magnitude below 10^21). *)
Definition Z_toString (n : Z) : string :=
  NilZero.string_of_int (Z.to_int n).

(** A formatter for rationals used in the worked examples: the integer part,
    then the decimal digits up to the end of the expansion or [fuel] digits.
    It agrees with JavaScript on the short decimals of the examples
    (7.4 prints as 7.4, 2 prints as 2). *)
Fixpoint frac_digits (fuel : nat) (r d : Z) : string :=
  match fuel with
  | O => EmptyString
  | S fuel' =>
      if r =? 0 then EmptyString
      else Z_toString ((10 * r) / d) ++ frac_digits fuel' ((10 * r) mod d) d
  end.

Definition decimal_toString (q : Q) : string :=
  let n := Qnum q in
  let d := Zpos (Qden q) in
  let a := Z.abs n in
  let frac := frac_digits 17 (a mod d) d in
  (if n <? 0 then "-" else "")
  ++ Z_toString (a / d)
  ++ (if (a mod d) =? 0 then "" else "." ++ frac).

End JsString.
Import JsString.

(** [x < y] on real-valued numbers, as a test. *)
Definition Qlt_bool (x y : Q) : bool :=
  (Qnum x * QDen y <? Qnum y * QDen x)%Z.

(** Formatting of a real-valued number inside a template literal
    ([Number::toString] on a double).  The shortest-round-trip printing of
    doubles is not modelled: the service is verified for every formatter. *)
Class NumberFormat := { Number_toString : Q -> string }.

(** The instance used in the worked examples. *)
Definition decimal_format : NumberFormat :=
  {| Number_toString := decimal_toString |}.

(** ** Completions and promises *)

(** The outcome of evaluating an expression: a value, or a thrown exception
    (its message). *)
Inductive Completion (A : Type) : Type :=
| Normal (a : A)
| Throw (e : string).
Arguments Normal {A} a.
Arguments Throw {A} e.

Definition bind {A B : Type} (c : Completion A) (k : A -> Completion B) : Completion B :=
  match c with
  | Normal a => k a
  | Throw e => Throw e
  end.

Notation "x <- c ;; k" := (bind c (fun x => k))
  (at level 61, c at next level, right associativity).

(** Reading a property of the result of an index access: [arr[i]] is
    [undefined] out of range, and a property read on [undefined] throws. *)
Definition deref {A : Type} (o : option A) : Completion A :=
  match o with
  | Some a => Normal a
  | None => Throw "TypeError: Cannot read properties of undefined"
  end.

(** A settled promise. *)
Inductive Promise (A : Type) : Type :=
| Fulfilled (a : A)
| Rejected (e : string).
Arguments Fulfilled {A} a.
Arguments Rejected {A} e.

(** An [async] function settles its promise with the completion of its body. *)
Definition async {A : Type} (c : Completion A) : Promise A :=
  match c with
  | Normal a => Fulfilled a
  | Throw e => Rejected e
  end.

(** [await p]: the value of a fulfilled promise; a rejection is rethrown. *)
Definition await {A : Type} (p : Promise A) : Completion A :=
  match p with
  | Fulfilled a => Normal a
  | Rejected e => Throw e
  end.

(** ** Data model *)

(** Modelled from the spec: the record types [StateData] and
    [WaterQualityReport] of [../types], a file that is not among the sources.
    The fields are the ones the service reads; the counts are integers and
    the measurements real-valued, as the data model of the specification
    has them. *)
Module Disease.
Record t : Type := { name : string; affected : Z }.
End Disease.

Module StateData.
Record t : Type := {
  name : string;
  totalAffected : Z;
  diseases : list Disease.t
}.
End StateData.

Module WaterQualityReport.
Record t : Type := {
  siteName : string;
  siteType : string;
  ph : Q;
  turbidity : Q
}.
End WaterQualityReport.

(** The [contextData] argument of the assistant. *)
Record ContextData : Type := {
  states : list StateData.t;
  reports : list WaterQualityReport.t
}.

Record JalAssistantResponse : Type := {
  text : string;
  audioBase64 : option string;
  audioMimeType : option string
}.

(** ** Array.prototype.sort *)

(** [arr.sort(compareFn)] orders the elements by the sign of [compareFn] and
    is stable: elements that compare as equal keep their relative order.
    The model is the stable insertion sort. *)
Section ArraySort.
Context {A : Type} (compareFn : A -> A -> Z).

Fixpoint sort_insert (x : A) (l : list A) : list A :=
  match l with
  | [] => [x]
  | y :: l' => if compareFn x y <=? 0 then x :: y :: l' else y :: sort_insert x l'
  end.

Fixpoint Array_sort (l : list A) : list A :=
  match l with
  | [] => []
  | x :: l' => sort_insert x (Array_sort l')
  end.
End ArraySort.

(** A list in descending order of a key. *)
Definition Descending {A : Type} (key : A -> Z) (l : list A) : Prop :=
  StronglySorted (fun a b => key b <= key a) l.

(** ** The service *)

Section Service.
Context {fmt : NumberFormat}.

(** The comparator of [getTopStateSummary]:
    [(a, b) => b.totalAffected - a.totalAffected]. *)
Definition byTotalAffectedDesc (a b : StateData.t) : Z :=
  StateData.totalAffected b - StateData.totalAffected a.

Definition topStateSentence (top : StateData.t) : string :=
  StateData.name top
  ++ " currently has the highest reported disease burden with "
  ++ Z_toString (StateData.totalAffected top) ++ " affected cases.".

Definition noStateData : string := "No state disease data is available yet.".

Definition noWaterData : string := "No recent water quality reports are available.".

Definition getTopStateSummary (states : list StateData.t) : Completion string :=
  if (length states =? 0)%nat then Normal noStateData
  else
    top <- deref (nth_error (Array_sort byTotalAffectedDesc states) 0) ;;
    Normal (topStateSentence top).

Definition safePh (latest : WaterQualityReport.t) : bool :=
  (Qle_bool 6.5 (WaterQualityReport.ph latest)
   && Qle_bool (WaterQualityReport.ph latest) 8.5)%bool.

Definition safeTurbidity (latest : WaterQualityReport.t) : bool :=
  Qlt_bool (WaterQualityReport.turbidity latest) 5.

(** The reading the code takes for safe: pH in [6.5, 8.5], both ends
  included, and turbidity below 5. *)
Definition SafeReading (latest : WaterQualityReport.t) : Prop :=
  (6.5 <= WaterQualityReport.ph latest)%Q
  /\ (WaterQualityReport.ph latest <= 8.5)%Q
  /\ (WaterQualityReport.turbidity latest < 5)%Q.

Definition verdictOf (latest : WaterQualityReport.t) : string :=
  if (safePh latest && safeTurbidity latest)%bool
  then "within safe range" else "needs attention".

Definition waterSentence (latest : WaterQualityReport.t) (verdict : string) : string :=
  "Latest site " ++ WaterQualityReport.siteName latest
  ++ " (" ++ WaterQualityReport.siteType latest
  ++ ") shows pH " ++ Number_toString (WaterQualityReport.ph latest)
  ++ " and turbidity " ++ Number_toString (WaterQualityReport.turbidity latest)
  ++ " NTU, which " ++ verdict ++ ".".

(** The sentence is a prefix that does not depend on the verdict, followed
  by the verdict clause. *)
Definition waterSentencePrefix (latest : WaterQualityReport.t) : string :=
  "Latest site " ++ WaterQualityReport.siteName latest
  ++ " (" ++ WaterQualityReport.siteType latest
  ++ ") shows pH " ++ Number_toString (WaterQualityReport.ph latest)
  ++ " and turbidity " ++ Number_toString (WaterQualityReport.turbidity latest)
  ++ " NTU, ".

Definition getRecentWaterSummary (reports : list WaterQualityReport.t) : Completion string :=
  if (length reports =? 0)%nat then Normal noWaterData
  else
    latest <- deref (nth_error reports (length reports - 1)) ;;
    Normal (waterSentence latest (verdictOf latest)).

Definition pHFact : string := "The safe pH range for drinking water is 6.5 to 8.5.".

Definition offlineDisclaimer : string :=
  "I am running in offline mode without external AI APIs.".

Definition getOfflineAssistantReply (userQuery : string) (contextData : ContextData)
  : Completion string :=
  let q := toLowerCase userQuery in
  if (includes q "ph" || includes q "safe range")%bool then Normal pHFact
  else if (includes q "state" || includes q "disease" || includes q "cases")%bool then
    top <- getTopStateSummary (states contextData) ;;
    water <- getRecentWaterSummary (reports contextData) ;;
    Normal (top ++ " " ++ water)
  else if (includes q "water" || includes q "quality" || includes q "turbidity")%bool then
    getRecentWaterSummary (reports contextData)
  else
    top <- getTopStateSummary (states contextData) ;;
    water <- getRecentWaterSummary (reports contextData) ;;
    Normal (offlineDisclaimer ++ " " ++ top ++ " " ++ water).

(** [topDisease?.name || "water-borne disease"]: the fallback is taken when
    there is no first entry and when its name is falsy (the empty string). *)
Definition topConcernName (topDisease : option Disease.t) : string :=
  match topDisease with
  | Some d => if String.eqb (Disease.name d) "" then "water-borne disease" else Disease.name d
  | None => "water-borne disease"
  end.

(** [topDisease?.affected || 0] *)
Definition topConcernCount (topDisease : option Disease.t) : Z :=
  match topDisease with
  | Some d => if Disease.affected d =? 0 then 0 else Disease.affected d
  | None => 0
  end.

Definition recommendationParagraph : string :=
  "RECOMMENDATION: Prioritize chlorination checks and ORS stock in high-burden districts this week.".

Definition newline : string := String (ascii_of_nat 10) EmptyString.

Definition healthReportText (stateName : string) (total : Z) (concern : string) (count : Z)
  : string :=
  "Offline analysis for " ++ stateName ++ ": total affected " ++ Z_toString total
  ++ ". Top concern is " ++ concern ++ " with " ++ Z_toString count
  ++ " reported cases." ++ newline ++ newline ++ recommendationParagraph.

Definition generateHealthReport (stateData : StateData.t) : Promise string :=
  async (
    let topDisease := nth_error (StateData.diseases stateData) 0 in
    Normal (healthReportText (StateData.name stateData) (StateData.totalAffected stateData)
              (topConcernName topDisease) (topConcernCount topDisease))).

Definition defaultMeasures : list string :=
  ["Drink boiled or filtered water"; "Wash hands with soap before meals";
   "Avoid uncovered street food"].

Definition choleraMeasures : list string :=
  ["Use chlorinated drinking water"; "Wash fruits and utensils with clean water";
   "Use ORS and seek care immediately for severe diarrhea"].

Definition typhoidMeasures : list string :=
  ["Drink safe water only"; "Avoid raw cut fruits from unknown vendors";
   "Complete prescribed antibiotics from a doctor"].

Definition suggestPreventiveMeasures (diseaseName : string) : Promise (list string) :=
  async (
    let defaults := defaultMeasures in
    let disease := toLowerCase diseaseName in
    if includes disease "cholera" then Normal choleraMeasures
    else if includes disease "typhoid" then Normal typhoidMeasures
    else Normal defaults).

Definition askJalAssistantWithVoice (userQuery : string) (contextData : ContextData)
    (_languageCode : string) : Promise JalAssistantResponse :=
  async (
    reply <- getOfflineAssistantReply userQuery contextData ;;
    Normal {| text := reply; audioBase64 := None; audioMimeType := None |}).

Definition askJalAssistant (userQuery : string) (contextData : ContextData)
    (languageCode : string) : Promise string :=
  async (
    result <- await (askJalAssistantWithVoice userQuery contextData languageCode) ;;
    Normal (text result)).

End Service.

(** ** The simulated report *)

Module Metric.
Record t : Type := { name : string; value : string; unit : string; status : string }.
End Metric.

Module Coordinates.
Record t : Type := { lat : Q; lng : Q }.
End Coordinates.

(** The [location] parameter of [getMockAdvancedReport] and the wider one of
    [getAdvancedReport], which is passed on as it is. *)
Module MockLocation.
Record t : Type := { city : string }.
End MockLocation.

Module Location.
Record t : Type := { state : string; city : string; date : string; time : option string }.
Definition asMockLocation (l : t) : MockLocation.t := {| MockLocation.city := city l |}.
End Location.

Module Report.
Record t : Type := {
  title : string;
  overall_status : string;
  score : Z;
  verdict : string;
  summary : string;
  key_metrics : list Metric.t;
  alerts : list string;
  recommendations : list string;
  coordinates : Coordinates.t;
  is_simulated : bool
}.
End Report.

(** [Math.floor(Math.random() * 40) + 50] for the draw [rnd], the value of
    [Math.random()], a number of [0, 1). *)
Definition mockScore (rnd : Q) : Z := Qfloor (rnd * 40) + 50.

Definition mockIsWater (reportType : string) : bool :=
  (includes (toLowerCase reportType) "water"
   || includes (toLowerCase reportType) "groundwater")%bool.

Definition mockIsDisease (reportType : string) : bool :=
  (includes (toLowerCase reportType) "disease"
   || includes (toLowerCase reportType) "hospital")%bool.

(** [verdict] is declared with the value "Analysis Inconclusive", which
    each of the three branches overwrites. *)
Definition getMockAdvancedReport (rnd : Q) (reportType : string) (location : MockLocation.t)
  : Report.t :=
  let isWater := mockIsWater reportType in
  let isDisease := mockIsDisease reportType in
  let score := mockScore rnd in
  let isSafe := 75 <? score in
  let verdict :=
    if isWater then (if isSafe then "Safe for Consumption" else "Requires Filtration")
    else if isDisease then (if isSafe then "Low Health Risk" else "Elevated Viral Risk")
    else (if isSafe then "Stable Conditions" else "Caution Advised") in
  {| Report.title := reportType ++ " - Simulated Analysis";
     Report.overall_status := if isSafe then "Safe" else "Caution";
     Report.score := score;
     Report.verdict := verdict;
     Report.summary :=
       "This is a simulated report for " ++ MockLocation.city location
       ++ " because the AI service is currently unreachable (likely Free Tier rate limit). Data suggests "
       ++ (if isWater
           then (if isSafe then "water parameters are within acceptable limits."
                 else "turbidity levels are slightly high, boiling advised.")
           else if isDisease then "seasonal variations in local health data."
           else "nominal environmental parameters.");
     Report.key_metrics :=
       [ {| Metric.name := if isWater then "pH Level" else if isDisease then "Daily OPD" else "Larval Density";
            Metric.value := if isWater then "7.4" else if isDisease then "145" else "12";
            Metric.unit := if isWater then "" else if isDisease then "patients" else "per dip";
            Metric.status := "Neutral" |};
         {| Metric.name := if isWater then "Turbidity" else if isDisease then "Viral Fever" else "Fogging Coverage";
            Metric.value := if isWater then "12" else if isDisease then "45" else "85";
            Metric.unit := if isWater then "NTU" else if isDisease then "cases" else "%";
            Metric.status := if isWater then "Bad" else "Neutral" |};
         {| Metric.name := if isWater then "Dissolved Oxygen" else if isDisease then "Bed Occupancy" else "Stagnant Water";
            Metric.value := if isWater then "6.2" else if isDisease then "68" else "Low";
            Metric.unit := if isWater then "mg/L" else if isDisease then "%" else "risk";
            Metric.status := "Good" |};
         {| Metric.name := if isWater then "E. Coli" else if isDisease then "Critical Cases" else "Vector Index";
            Metric.value := if isWater then "4" else if isDisease then "2" else "0.4";
            Metric.unit := if isWater then "CFU" else if isDisease then "cases" else "";
            Metric.status := "Good" |} ];
     Report.alerts :=
       ["Simulated Alert: Data based on historical averages due to connection issue."];
     Report.recommendations :=
       ["Check internet connection or API quota.";
        "Verify field data manually before taking action.";
        "Proceed with standard operating procedures."];
     Report.coordinates := {| Coordinates.lat := 26.1445; Coordinates.lng := 91.7362 |};
     Report.is_simulated := true |}.

(** The line [getAdvancedReport] writes with [console.info]. *)
Definition advancedReportNotice (reportType : string) (location : Location.t) : string :=
  "Offline mode active. Returning simulated " ++ reportType ++ " report for "
  ++ Location.city location ++ ", " ++ Location.state location ++ ".".

(** [getAdvancedReport]: the console lines written, and the settled promise. *)
Definition getAdvancedReport (rnd : Q) (reportType : string) (location : Location.t)
  : list string * Promise Report.t :=
  ([advancedReportNotice reportType location],
   async (Normal (getMockAdvancedReport rnd reportType (Location.asMockLocation location)))).

(** ** Binary64 arithmetic

    The doubles as rationals, and rounding to nearest, ties to even, of a
    rational of magnitude below 2^1024 to a double: 53 significant bits in
    the binade of the number, and multiples of 2^-1074 below 2^-1022. *)
Module Binary64.
Local Open Scope Q_scope.

(** For [x > 0], the [k] with [2^k <= x < 2^(k+1)]. *)
Definition binade (x : Q) : Z :=
  let a := (Z.log2 (Qnum x) - Z.log2 (Zpos (Qden x)))%Z in
  if Qle_bool (2 ^ a) x then a else (a - 1)%Z.

(** The exponent of the unit in the last place of the doubles around [x]. *)
Definition ulpExponent (x : Q) : Z := Z.max (binade x - 52) (-1074).

(** The integer nearest to [y], the even one of the two when [y] is half
    way. *)
Definition roundHalfEven (y : Q) : Z :=
  let f := Qfloor y in
  match Qcompare (y - inject_Z f) (1 # 2) with
  | Lt => f
  | Gt => (f + 1)%Z
  | Eq => if Z.even f then f else (f + 1)%Z
  end.

Definition roundPositive (x : Q) : Q :=
  let e := ulpExponent x in inject_Z (roundHalfEven (x / 2 ^ e)) * 2 ^ e.

(** The double nearest to [x]. *)
Definition round (x : Q) : Q :=
  match Qcompare x 0 with
  | Eq => 0
  | Gt => roundPositive x
  | Lt => - roundPositive (- x)
  end.

(** [x * y] on doubles: the exact product, rounded. *)
Definition mul (x y : Q) : Q := round (x * y).

(** [x] is a double. *)
Definition Representable (x : Q) : Prop := round x == x.

End Binary64.

(** ** The simulated report in double arithmetic *)

(** Lines 86 to 112 of [getMockAdvancedReport]: the report built from the
    score. *)
Definition mockReportOfScore (score : Z) (reportType : string) (location : MockLocation.t)
  : Report.t :=
  let isWater := mockIsWater reportType in
  let isDisease := mockIsDisease reportType in
  let isSafe := 75 <? score in
  let verdict :=
    if isWater then (if isSafe then "Safe for Consumption" else "Requires Filtration")
    else if isDisease then (if isSafe then "Low Health Risk" else "Elevated Viral Risk")
    else (if isSafe then "Stable Conditions" else "Caution Advised") in
  {| Report.title := reportType ++ " - Simulated Analysis";
     Report.overall_status := if isSafe then "Safe" else "Caution";
     Report.score := score;
     Report.verdict := verdict;
     Report.summary :=
       "This is a simulated report for " ++ MockLocation.city location
       ++ " because the AI service is currently unreachable (likely Free Tier rate limit). Data suggests "
       ++ (if isWater
           then (if isSafe then "water parameters are within acceptable limits."
                 else "turbidity levels are slightly high, boiling advised.")
           else if isDisease then "seasonal variations in local health data."
           else "nominal environmental parameters.");
     Report.key_metrics :=
       [ {| Metric.name := if isWater then "pH Level" else if isDisease then "Daily OPD" else "Larval Density";
            Metric.value := if isWater then "7.4" else if isDisease then "145" else "12";
            Metric.unit := if isWater then "" else if isDisease then "patients" else "per dip";
            Metric.status := "Neutral" |};
         {| Metric.name := if isWater then "Turbidity" else if isDisease then "Viral Fever" else "Fogging Coverage";
            Metric.value := if isWater then "12" else if isDisease then "45" else "85";
            Metric.unit := if isWater then "NTU" else if isDisease then "cases" else "%";
            Metric.status := if isWater then "Bad" else "Neutral" |};
         {| Metric.name := if isWater then "Dissolved Oxygen" else if isDisease then "Bed Occupancy" else "Stagnant Water";
            Metric.value := if isWater then "6.2" else if isDisease then "68" else "Low";
            Metric.unit := if isWater then "mg/L" else if isDisease then "%" else "risk";
            Metric.status := "Good" |};
         {| Metric.name := if isWater then "E. Coli" else if isDisease then "Critical Cases" else "Vector Index";
            Metric.value := if isWater then "4" else if isDisease then "2" else "0.4";
            Metric.unit := if isWater then "CFU" else if isDisease then "cases" else "";
            Metric.status := "Good" |} ];
     Report.alerts :=
       ["Simulated Alert: Data based on historical averages due to connection issue."];
     Report.recommendations :=
       ["Check internet connection or API quota.";
        "Verify field data manually before taking action.";
        "Proceed with standard operating procedures."];
     Report.coordinates := {| Coordinates.lat := 26.1445; Coordinates.lng := 91.7362 |};
     Report.is_simulated := true |}.

(** [Math.floor(Math.random() * 40) + 50] for the draw [rnd], a double of
    [0, 1): the product is the product of doubles; the floor of a double and
    the sum of two integers below 2^53 are exact. *)
Definition mockScore64 (rnd : Q) : Z := Qfloor (Binary64.mul rnd 40) + 50.

(** [getMockAdvancedReport] with the score of line 85 computed on doubles. *)
Definition getMockAdvancedReport64 (rnd : Q) (reportType : string) (location : MockLocation.t)
  : Report.t :=
  mockReportOfScore (mockScore64 rnd) reportType location.

(** The double nearest to 0.7, and the greatest double below 1. *)
Definition double_0_7 : Q := 6305039478318694 # 9007199254740992.

Definition double_below_1 : Q := 9007199254740991 # 9007199254740992.

(** ** The service over a store of arrays

    Arrays are objects: the caller passes references, [[...a]] allocates a
    fresh array and [a.sort(f)] reorders the array [a] itself.  The store
    holds the arrays of the program and the lines written to the console.
    Records are kept by value, the service having no assignment to a
    property of a record. *)

Definition ref : Type := nat.

Record Store : Type := {
  stateArrays : list (list StateData.t);
  reportArrays : list (list WaterQualityReport.t);
  console : list string
}.

(** A computation over the store; the store survives a thrown exception. *)
Definition Eff (A : Type) : Type := Store -> Completion A * Store.

Definition ret {A : Type} (a : A) : Eff A := fun st => (Normal a, st).

Definition bindE {A B : Type} (c : Eff A) (k : A -> Eff B) : Eff B :=
  fun st =>
    match c st with
    | (Normal a, st') => k a st'
    | (Throw e, st') => (Throw e, st')
    end.

Notation "x <~ c ;; k" := (bindE c (fun x => k))
  (at level 61, c at next level, right associativity).

Definition liftC {A : Type} (c : Completion A) : Eff A := fun st => (c, st).

(** The body of an [async] function runs to its completion, which settles
    the promise the call returns. *)
Definition asyncE {A : Type} (body : Eff A) : Eff (Promise A) :=
  fun st => let (c, st') := body st in (Normal (async c), st').

(** [l] with its element at index [i] replaced (nothing out of range). *)
Fixpoint list_set {A : Type} (i : nat) (x : A) (l : list A) : list A :=
  match l, i with
  | [], _ => []
  | _ :: l', O => x :: l'
  | y :: l', S i' => y :: list_set i' x l'
  end.

Definition invalidRef : string := "invalid array reference".

Definition stateArray_read (a : ref) : Eff (list StateData.t) :=
  fun st => (match nth_error (stateArrays st) a with
             | Some l => Normal l
             | None => Throw invalidRef
             end, st).

Definition reportArray_read (a : ref) : Eff (list WaterQualityReport.t) :=
  fun st => (match nth_error (reportArrays st) a with
             | Some l => Normal l
             | None => Throw invalidRef
             end, st).

(** [a.length] *)
Definition stateArray_length (a : ref) : Eff nat :=
  l <~ stateArray_read a ;; ret (length l).

Definition reportArray_length (a : ref) : Eff nat :=
  l <~ reportArray_read a ;; ret (length l).

(** [a[i]] *)
Definition stateArray_index (a : ref) (i : nat) : Eff (option StateData.t) :=
  l <~ stateArray_read a ;; ret (nth_error l i).

Definition reportArray_index (a : ref) (i : nat) : Eff (option WaterQualityReport.t) :=
  l <~ reportArray_read a ;; ret (nth_error l i).

(** [[...a]]: a new array with the elements of [a], at a fresh reference. *)
Definition stateArray_spread (a : ref) : Eff ref :=
  fun st =>
    match nth_error (stateArrays st) a with
    | Some l =>
        (Normal (length (stateArrays st)),
         {| stateArrays := stateArrays st ++ [l];
            reportArrays := reportArrays st;
            console := console st |})
    | None => (Throw invalidRef, st)
    end.

(** [a.sort(compareFn)]: sorts the array [a] in place and returns [a]. *)
Definition stateArray_sort (compareFn : StateData.t -> StateData.t -> Z) (a : ref) : Eff ref :=
  fun st =>
    match nth_error (stateArrays st) a with
    | Some l =>
        (Normal a,
         {| stateArrays := list_set a (Array_sort compareFn l) (stateArrays st);
            reportArrays := reportArrays st;
            console := console st |})
    | None => (Throw invalidRef, st)
    end.

(** [console.info(line)] *)
Definition console_info (line : string) : Eff unit :=
  fun st =>
    (Normal tt,
     {| stateArrays := stateArrays st;
        reportArrays := reportArrays st;
        console := console st ++ [line] |}).

(** The [contextData] object, holding references to the caller's arrays. *)
Record ContextRefs : Type := { statesRef : ref; reportsRef : ref }.

Module Stateful.
Section Service.
Context {fmt : NumberFormat}.

Definition getTopStateSummary (states : ref) : Eff string :=
  n <~ stateArray_length states ;;
  if (n =? 0)%nat then ret noStateData
  else
    copy <~ stateArray_spread states ;;
    sorted <~ stateArray_sort byTotalAffectedDesc copy ;;
    top <~ stateArray_index sorted 0 ;;
    top <~ liftC (deref top) ;;
    ret (topStateSentence top).

Definition getRecentWaterSummary (reports : ref) : Eff string :=
  n <~ reportArray_length reports ;;
  if (n =? 0)%nat then ret noWaterData
  else
    latest <~ reportArray_index reports (n - 1) ;;
    latest <~ liftC (deref latest) ;;
    ret (waterSentence latest (verdictOf latest)).

Definition getOfflineAssistantReply (userQuery : string) (contextData : ContextRefs)
  : Eff string :=
  let q := toLowerCase userQuery in
  if (includes q "ph" || includes q "safe range")%bool then ret pHFact
  else if (includes q "state" || includes q "disease" || includes q "cases")%bool then
    top <~ getTopStateSummary (statesRef contextData) ;;
    water <~ getRecentWaterSummary (reportsRef contextData) ;;
    ret (top ++ " " ++ water)
  else if (includes q "water" || includes q "quality" || includes q "turbidity")%bool then
    getRecentWaterSummary (reportsRef contextData)
  else
    top <~ getTopStateSummary (statesRef contextData) ;;
    water <~ getRecentWaterSummary (reportsRef contextData) ;;
    ret (offlineDisclaimer ++ " " ++ top ++ " " ++ water).

Definition askJalAssistantWithVoice (userQuery : string) (contextData : ContextRefs)
    (_languageCode : string) : Eff (Promise JalAssistantResponse) :=
  asyncE (
    reply <~ getOfflineAssistantReply userQuery contextData ;;
    ret {| text := reply; audioBase64 := None; audioMimeType := None |}).

Definition askJalAssistant (userQuery : string) (contextData : ContextRefs)
    (languageCode : string) : Eff (Promise string) :=
  asyncE (
    p <~ askJalAssistantWithVoice userQuery contextData languageCode ;;
    result <~ liftC (await p) ;;
    ret (text result)).

(** The two exported functions that take no array only compute on their
    argument. *)
Definition generateHealthReport (stateData : StateData.t) : Eff (Promise string) :=
  ret (generateHealthReport stateData).

Definition suggestPreventiveMeasures (diseaseName : string) : Eff (Promise (list string)) :=
  ret (suggestPreventiveMeasures diseaseName).

Definition getAdvancedReport (rnd : Q) (reportType : string) (location : Location.t)
  : Eff (Promise Report.t) :=
  asyncE (
    _ <~ console_info (advancedReportNotice reportType location) ;;
    ret (getMockAdvancedReport rnd reportType (Location.asMockLocation location))).

End Service.
End Stateful.

(** What a call leaves of the caller's store: every array that existed
    before the call is still there with the same elements in the same order
    (new arrays may have been allocated after them). *)
Definition Preserved (st st' : Store) : Prop :=
  firstn (length (stateArrays st)) (stateArrays st') = stateArrays st
  /\ reportArrays st' = reportArrays st.

(** A computation that preserves the arrays of every store it runs in. *)
Definition Frames {A : Type} (c : Eff A) : Prop :=
  forall st, Preserved st (snd (c st)).

(** ** Sample data of the worked examples *)

Definition assam : StateData.t :=
  {| StateData.name := "Assam"; StateData.totalAffected := 120;
     StateData.diseases := [ {| Disease.name := "Cholera"; Disease.affected := 70 |};
                             {| Disease.name := "Typhoid"; Disease.affected := 50 |} ] |}.

Definition bihar : StateData.t :=
  {| StateData.name := "Bihar"; StateData.totalAffected := 340;
     StateData.diseases := [ {| Disease.name := ""; Disease.affected := 7 |} ] |}.

Definition kerala : StateData.t :=
  {| StateData.name := "Kerala"; StateData.totalAffected := 340; StateData.diseases := [] |}.

Definition sampleStates : list StateData.t := [assam; bihar; kerala].

Definition reading (ph turbidity : Q) : WaterQualityReport.t :=
  {| WaterQualityReport.siteName := "Site"; WaterQualityReport.siteType := "Well";
     WaterQualityReport.ph := ph; WaterQualityReport.turbidity := turbidity |}.

Definition wellReport : WaterQualityReport.t :=
  {| WaterQualityReport.siteName := "Dispur Well"; WaterQualityReport.siteType := "Well";
     WaterQualityReport.ph := 9; WaterQualityReport.turbidity := 2 |}.

Definition riverReport : WaterQualityReport.t :=
  {| WaterQualityReport.siteName := "Brahmaputra Ghat"; WaterQualityReport.siteType := "River";
     WaterQualityReport.ph := 7.4; WaterQualityReport.turbidity := 2 |}.

Definition sampleContext : ContextData :=
  {| states := sampleStates; reports := [wellReport; riverReport] |}.

Definition sampleStore : Store :=
  {| stateArrays := [sampleStates]; reportArrays := [[wellReport; riverReport]]; console := [] |}.

(** * Properties *)

(** ** Strings *)

Lemma string_app_assoc (a b c : string) : (a ++ b) ++ c = a ++ (b ++ c).
Proof. induction a as [|x a IH]; simpl; [reflexivity | now rewrite IH]. Qed.

Lemma string_app_nil_r (a : string) : a ++ "" = a.
Proof. induction a as [|x a IH]; simpl; [reflexivity | now rewrite IH]. Qed.

Lemma string_app_length (a b : string) :
  String.length (a ++ b) = (String.length a + String.length b)%nat.
Proof. induction a as [|x a IH]; simpl; [reflexivity | now rewrite IH]. Qed.

Lemma startsWith_spec (s p : string) :
  startsWith s p = true <-> exists post, s = p ++ post.
Proof.
  revert s; induction p as [|a p IH]; intros s.
  - split; [intros _; now exists s | intros _; now destruct s].
  - destruct s as [|b s]; simpl.
    + split; [discriminate | intros [post H]; discriminate].
    + rewrite andb_true_iff, Ascii.eqb_eq, IH. split.
      * intros [-> [post ->]]. now exists post.
      * intros [post H]. injection H as -> ->. split; [reflexivity | now exists post].
Qed.

Lemma includes_spec (s sub : string) :
  includes s sub = true <-> Substring sub s.
Proof.
  unfold Substring. induction s as [|c s IH].
  - cbn [includes]. rewrite orb_false_r, startsWith_spec. split.
    + intros [post H]. now exists "", post.
    + intros [pre [post H]]. destruct pre; simpl in H.
      * now exists post.
      * discriminate.
  - cbn [includes]. rewrite orb_true_iff, startsWith_spec, IH. split.
    + intros [[post H] | [pre [post H]]].
      * now exists "", post.
      * exists (String c pre), post. simpl. now rewrite H.
    + intros [pre [post H]]. destruct pre as [|x pre]; simpl in H.
      * left. now exists post.
      * right. injection H as _ H. now exists pre, post.
Qed.

Lemma includes_false_spec (s sub : string) :
  includes s sub = false <-> ~ Substring sub s.
Proof.
  rewrite <- includes_spec. destruct (includes s sub); split; congruence.
Qed.

Lemma endsWith_spec (s p : string) :
  endsWith s p = true <-> exists pre, s = pre ++ p.
Proof.
  induction s as [|c s IH].
  - cbn [endsWith]. rewrite orb_false_r, String.eqb_eq. split.
    + intros <-. now exists "".
    + intros [pre H]. destruct pre; simpl in H; [now subst | discriminate].
  - cbn [endsWith]. rewrite orb_true_iff, String.eqb_eq, IH. split.
    + intros [<- | [pre ->]]; [now exists "" | now exists (String c pre)].
    + intros [pre H]. destruct pre as [|x pre]; simpl in H.
      * now left.
      * right. injection H as _ H. now exists pre.
Qed.

Lemma toLowerCase_app (a b : string) :
  toLowerCase (a ++ b) = toLowerCase a ++ toLowerCase b.
Proof. induction a as [|x a IH]; simpl; [reflexivity | now rewrite IH]. Qed.

(** A keyword written in lower case that occurs in the query occurs in the
    lower-cased query. *)
Lemma Substring_toLowerCase (sub q : string) :
  Substring sub q -> Substring (toLowerCase sub) (toLowerCase q).
Proof.
  intros [pre [post ->]]. exists (toLowerCase pre), (toLowerCase post).
  now rewrite !toLowerCase_app.
Qed.

(** Two suffixes of one string that have the same length are equal. *)
Lemma suffix_same_length (a b c d : string) :
  a ++ b = c ++ d -> String.length b = String.length d -> b = d.
Proof.
  revert c; induction a as [|x a IH]; intros c H L.
  - destruct c as [|y c]; simpl in H; [assumption|].
    exfalso. apply (f_equal String.length) in H. simpl in H.
    rewrite string_app_length in H. lia.
  - destruct c as [|y c]; simpl in H.
    + exfalso. apply (f_equal String.length) in H. simpl in H.
      rewrite string_app_length in H. lia.
    + injection H as _ H. now apply (IH c).
Qed.

Lemma app_inv_head_string (a b c : string) : a ++ b = a ++ c -> b = c.
Proof. induction a as [|x a IH]; simpl; intros H; [assumption | injection H as H; auto]. Qed.

(** ** Sorting *)

Section ArraySortFacts.
Context {A : Type} (compareFn : A -> A -> Z).

Lemma sort_insert_perm (x : A) (l : list A) :
  Permutation (x :: l) (sort_insert compareFn x l).
Proof.
  induction l as [|y l IH]; simpl.
  - apply Permutation_refl.
  - destruct (compareFn x y <=? 0).
    + apply Permutation_refl.
    + eapply perm_trans; [apply perm_swap | apply perm_skip, IH].
Qed.

Lemma Array_sort_perm (l : list A) : Permutation l (Array_sort compareFn l).
Proof.
  induction l as [|x l IH]; simpl.
  - apply perm_nil.
  - eapply perm_trans; [apply perm_skip, IH | apply sort_insert_perm].
Qed.

Lemma Array_sort_length (l : list A) : length (Array_sort compareFn l) = length l.
Proof. symmetry. apply Permutation_length, Array_sort_perm. Qed.

(** For a comparator that orders by a key in descending order, as
    [(a, b) => key(b) - key(a)] does, the result is sorted by that key. *)
Variable key : A -> Z.
Hypothesis compareFn_key : forall a b, compareFn a b = key b - key a.

Lemma sort_insert_descending (x : A) (l : list A) :
  Descending key l -> Descending key (sort_insert compareFn x l).
Proof.
  unfold Descending. induction l as [|y l IH]; intros Hs; simpl.
  - constructor; [constructor | constructor].
  - rewrite compareFn_key. destruct (Z.leb_spec (key y - key x) 0) as [Hle | Hgt].
    + constructor; [assumption|]. constructor; [lia|].
      apply StronglySorted_inv in Hs. destruct Hs as [_ Hall].
      eapply Forall_impl; [|exact Hall]. simpl. intros b Hb. lia.
    + apply StronglySorted_inv in Hs. destruct Hs as [Hs Hall].
      constructor; [now apply IH|].
      apply (Permutation_Forall (sort_insert_perm x l)).
      constructor; [lia | assumption].
Qed.

Lemma Array_sort_descending (l : list A) : Descending key (Array_sort compareFn l).
Proof.
  induction l as [|x l IH]; simpl.
  - constructor.
  - now apply sort_insert_descending.
Qed.

(** The first element of the sorted array has the greatest key of the
    array. *)
Lemma Array_sort_head_max (l : list A) (top : A) (rest : list A) :
  Array_sort compareFn l = top :: rest ->
  In top l /\ forall x, In x l -> key x <= key top.
Proof.
  intros E. pose proof (Array_sort_perm l) as P. rewrite E in P. split.
  - apply (Permutation_in _ (Permutation_sym P)). now left.
  - intros x Hx. apply (Permutation_in _ P) in Hx.
    pose proof (Array_sort_descending l) as S. unfold Descending in S. rewrite E in S.
    apply StronglySorted_inv in S. destruct S as [_ Hall].
    destruct Hx as [-> | Hx]; [lia|].
    rewrite Forall_forall in Hall. now apply Hall.
Qed.

End ArraySortFacts.

(** ** getTopStateSummary *)

Lemma byTotalAffectedDesc_key (a b : StateData.t) :
  byTotalAffectedDesc a b = StateData.totalAffected b - StateData.totalAffected a.
Proof. reflexivity. Qed.

(** On a non-empty array the function returns the sentence of the first
    element of the sorted copy, and that element exists. *)
Lemma getTopStateSummary_nonempty (s : StateData.t) (ss : list StateData.t) :
  exists top rest,
    Array_sort byTotalAffectedDesc (s :: ss) = top :: rest
    /\ getTopStateSummary (s :: ss) = Normal (topStateSentence top).
Proof.
  unfold getTopStateSummary.
  destruct (Array_sort byTotalAffectedDesc (s :: ss)) as [|top rest] eqn:E.
  - apply (f_equal (@length _)) in E. rewrite Array_sort_length in E. discriminate.
  - exists top, rest. split; reflexivity.
Qed.

(** C1. For the empty sequence [getTopStateSummary] returns the fixed
    sentence "No state disease data is available yet."; for every non-empty
    sequence it returns the sentence that names an element of the sequence
    whose [totalAffected] is greater than or equal to the [totalAffected] of
    every element. *)
Theorem getTopStateSummary_names_a_maximum :
  getTopStateSummary [] = Normal "No state disease data is available yet."
  /\ forall (s : StateData.t) (ss : list StateData.t),
       exists top : StateData.t,
         In top (s :: ss)
         /\ getTopStateSummary (s :: ss)
            = Normal (StateData.name top
                      ++ " currently has the highest reported disease burden with "
                      ++ Z_toString (StateData.totalAffected top) ++ " affected cases.")
         /\ forall x, In x (s :: ss) -> StateData.totalAffected x <= StateData.totalAffected top.
Proof.
  split; [reflexivity|]. intros s ss.
  destruct (getTopStateSummary_nonempty s ss) as [top [rest [E R]]].
  destruct (Array_sort_head_max byTotalAffectedDesc StateData.totalAffected
              byTotalAffectedDesc_key (s :: ss) top rest E) as [Hin Hmax].
  exists top. repeat split; assumption.
Qed.

(** ** getRecentWaterSummary *)

Lemma Qlt_bool_iff (x y : Q) : Qlt_bool x y = true <-> (x < y)%Q.
Proof. unfold Qlt_bool, Qlt. apply Z.ltb_lt. Qed.

Lemma nth_error_snoc {A : Type} (l : list A) (x : A) :
  nth_error (l ++ [x])%list (length (l ++ [x])%list - 1) = Some x.
Proof.
  rewrite length_app. simpl. replace (length l + 1 - 1)%nat with (length l) by lia.
  rewrite nth_error_app2 by lia. now rewrite Nat.sub_diag.
Qed.

Lemma safe_reading_test (latest : WaterQualityReport.t) :
  (safePh latest && safeTurbidity latest)%bool = true <-> SafeReading latest.
Proof.
  unfold safePh, safeTurbidity, SafeReading.
  rewrite !andb_true_iff, !Qle_bool_iff, Qlt_bool_iff. tauto.
Qed.

Lemma verdictOf_safe (latest : WaterQualityReport.t) :
  verdictOf latest = "within safe range" <-> SafeReading latest.
Proof.
  rewrite <- safe_reading_test. unfold verdictOf.
  destruct (safePh latest && safeTurbidity latest)%bool; split; congruence.
Qed.

Lemma verdictOf_attention (latest : WaterQualityReport.t) :
  verdictOf latest = "needs attention" <-> ~ SafeReading latest.
Proof.
  rewrite <- safe_reading_test. unfold verdictOf.
  destruct (safePh latest && safeTurbidity latest)%bool; split; congruence.
Qed.

Section WaterSummary.
Context {fmt : NumberFormat}.

Lemma getRecentWaterSummary_snoc (rs : list WaterQualityReport.t) (latest : WaterQualityReport.t) :
  getRecentWaterSummary (rs ++ [latest])
  = Normal (waterSentence latest (verdictOf latest)).
Proof.
  unfold getRecentWaterSummary.
  destruct (length (rs ++ [latest])%list =? 0)%nat eqn:E.
  - apply Nat.eqb_eq in E. rewrite length_app in E. simpl in E. lia.
  - now rewrite nth_error_snoc.
Qed.

Lemma waterSentence_shape (latest : WaterQualityReport.t) (verdict : string) :
  waterSentence latest verdict
  = waterSentencePrefix latest ++ ("which " ++ verdict ++ ".").
Proof.
  unfold waterSentence, waterSentencePrefix.
  repeat rewrite string_app_assoc. reflexivity.
Qed.

Lemma verdict_clauses_differ (a b : string) :
  a ++ "which within safe range." = b ++ "which needs attention." -> False.
Proof.
  intros H.
  change (a ++ "which within saf" ++ "e range." = b ++ "which needs at" ++ "tention.") in H.
  rewrite <- !string_app_assoc in H.
  apply suffix_same_length in H; [discriminate | reflexivity].
Qed.

(** The sentence ends with its verdict, and with no other one. *)
Lemma waterSentence_suffix (latest : WaterQualityReport.t) (verdict : string) :
  verdict = "within safe range" \/ verdict = "needs attention" ->
  (endsWith (waterSentence latest verdict) "which within safe range." = true
   <-> verdict = "within safe range")
  /\ (endsWith (waterSentence latest verdict) "which needs attention." = true
      <-> verdict = "needs attention").
Proof.
  intros Hv. rewrite waterSentence_shape.
  split; rewrite endsWith_spec; split.
  - intros [pre H]. destruct Hv as [-> | ->]; [reflexivity|].
    exfalso. now apply (verdict_clauses_differ pre (waterSentencePrefix latest)).
  - intros ->. now exists (waterSentencePrefix latest).
  - intros [pre H]. destruct Hv as [-> | ->]; [|reflexivity].
    exfalso. now apply (verdict_clauses_differ (waterSentencePrefix latest) pre).
  - intros ->. now exists (waterSentencePrefix latest).
Qed.

(** C2. For the empty sequence [getRecentWaterSummary] returns the fixed
    sentence "No recent water quality reports are available."; for every
    non-empty sequence it returns the sentence about the last element, whose
    verdict is "within safe range" if and only if the pH of that element is
    at least 6.5 and at most 8.5 and its turbidity is below 5, and is
    "needs attention" otherwise. *)
Theorem getRecentWaterSummary_verdict :
  getRecentWaterSummary [] = Normal "No recent water quality reports are available."
  /\ forall (rs : list WaterQualityReport.t) (latest : WaterQualityReport.t),
       let safe :=
         ((6.5 <= WaterQualityReport.ph latest)%Q
          /\ (WaterQualityReport.ph latest <= 8.5)%Q
          /\ (WaterQualityReport.turbidity latest < 5)%Q) in
       exists verdict sentence : string,
         getRecentWaterSummary (rs ++ [latest]) = Normal sentence
         /\ sentence
            = "Latest site " ++ WaterQualityReport.siteName latest
              ++ " (" ++ WaterQualityReport.siteType latest
              ++ ") shows pH " ++ Number_toString (WaterQualityReport.ph latest)
              ++ " and turbidity " ++ Number_toString (WaterQualityReport.turbidity latest)
              ++ " NTU, which " ++ verdict ++ "."
         /\ (verdict = "within safe range" <-> safe)
         /\ (verdict = "needs attention" <-> ~ safe)
         /\ (endsWith sentence "which within safe range." = true <-> safe)
         /\ (endsWith sentence "which needs attention." = true <-> ~ safe).
Proof.
  split; [reflexivity|]. intros rs latest safe.
  exists (verdictOf latest), (waterSentence latest (verdictOf latest)).
  assert (Hv : verdictOf latest = "within safe range" \/ verdictOf latest = "needs attention").
  { unfold verdictOf. destruct (safePh latest && safeTurbidity latest)%bool; auto. }
  destruct (waterSentence_suffix latest (verdictOf latest) Hv) as [S1 S2].
  split; [apply getRecentWaterSummary_snoc|].
  split; [reflexivity|].
  split; [apply verdictOf_safe|].
  split; [apply verdictOf_attention|].
  split.
  - rewrite S1. apply verdictOf_safe.
  - rewrite S2. apply verdictOf_attention.
Qed.

End WaterSummary.

(** ** The helpers never throw *)

Lemma getTopStateSummary_returns (l : list StateData.t) :
  exists sentence, getTopStateSummary l = Normal sentence.
Proof.
  destruct l as [|s ss].
  - now exists noStateData.
  - destruct (getTopStateSummary_nonempty s ss) as [top [rest [_ R]]].
    now exists (topStateSentence top).
Qed.

Lemma list_snoc_cases {A : Type} (l : list A) :
  l = [] \/ exists l' x, l = (l' ++ [x])%list.
Proof.
  induction l as [|x l' _] using rev_ind; [now left | right; now exists l', x].
Qed.

Section Assistant.
Context {fmt : NumberFormat}.

Lemma getRecentWaterSummary_returns (l : list WaterQualityReport.t) :
  exists sentence, getRecentWaterSummary l = Normal sentence.
Proof.
  destruct (list_snoc_cases l) as [-> | [rs [latest ->]]].
  - now exists noWaterData.
  - rewrite getRecentWaterSummary_snoc. eauto.
Qed.

(** The reply of each of the four branches, by the tests that select it. *)
Lemma reply_pH_branch (userQuery : string) (contextData : ContextData) :
  (includes (toLowerCase userQuery) "ph"
   || includes (toLowerCase userQuery) "safe range")%bool = true ->
  getOfflineAssistantReply userQuery contextData = Normal pHFact.
Proof. intros H. unfold getOfflineAssistantReply. cbv zeta. now rewrite H. Qed.

Lemma reply_state_branch (userQuery : string) (contextData : ContextData) :
  (includes (toLowerCase userQuery) "ph"
   || includes (toLowerCase userQuery) "safe range")%bool = false ->
  (includes (toLowerCase userQuery) "state"
   || includes (toLowerCase userQuery) "disease"
   || includes (toLowerCase userQuery) "cases")%bool = true ->
  getOfflineAssistantReply userQuery contextData
  = (top <- getTopStateSummary (states contextData) ;;
     water <- getRecentWaterSummary (reports contextData) ;;
     Normal (top ++ " " ++ water)).
Proof. intros H1 H2. unfold getOfflineAssistantReply. cbv zeta. now rewrite H1, H2. Qed.

(** The reply is always a value: no query and no context make the
    assistant throw. *)
Lemma getOfflineAssistantReply_returns (userQuery : string) (contextData : ContextData) :
  exists reply, getOfflineAssistantReply userQuery contextData = Normal reply.
Proof.
  destruct (getTopStateSummary_returns (states contextData)) as [top Ht].
  destruct (getRecentWaterSummary_returns (reports contextData)) as [water Hw].
  unfold getOfflineAssistantReply. cbv zeta.
  repeat match goal with |- context [if ?b then _ else _] => destruct b end;
    rewrite ?Ht, ?Hw; simpl; eauto.
Qed.

(** C3. Whenever the lower-cased query contains "ph" or "safe range",
    whatever else it contains and whatever the context holds, the reply is
    the fixed sentence "The safe pH range for drinking water is 6.5 to 8.5.":
    the first branch wins over the three others. *)
Theorem getOfflineAssistantReply_pH_priority (userQuery : string) (contextData : ContextData) :
  Substring "ph" (toLowerCase userQuery) \/ Substring "safe range" (toLowerCase userQuery) ->
  getOfflineAssistantReply userQuery contextData
  = Normal "The safe pH range for drinking water is 6.5 to 8.5.".
Proof.
  intros H. apply reply_pH_branch. apply orb_true_iff.
  destruct H as [H | H]; [left | right]; now apply includes_spec.
Qed.

(** C4, as amended. For every query that contains "disease" and whose
    lower-cased form contains neither "ph" nor "safe range", and every
    context with non-empty states and reports, the reply of
    [getOfflineAssistantReply], which [askJalAssistant] returns too, is the
    top-state summary, one space, and the recent-water summary of that
    context. *)
Theorem getOfflineAssistantReply_disease_branch
    (userQuery languageCode : string) (contextData : ContextData) :
  Substring "disease" userQuery ->
  ~ Substring "ph" (toLowerCase userQuery) ->
  ~ Substring "safe range" (toLowerCase userQuery) ->
  states contextData <> [] ->
  reports contextData <> [] ->
  exists top water : string,
    getTopStateSummary (states contextData) = Normal top
    /\ getRecentWaterSummary (reports contextData) = Normal water
    /\ getOfflineAssistantReply userQuery contextData = Normal (top ++ " " ++ water)
    /\ askJalAssistant userQuery contextData languageCode = Fulfilled (top ++ " " ++ water).
Proof.
  intros Hd Hp Hs _ _.
  destruct (getTopStateSummary_returns (states contextData)) as [top Ht].
  destruct (getRecentWaterSummary_returns (reports contextData)) as [water Hw].
  exists top, water.
  assert (R : getOfflineAssistantReply userQuery contextData = Normal (top ++ " " ++ water)).
  { rewrite reply_state_branch.
    - now rewrite Ht, Hw.
    - apply orb_false_iff. split; now apply includes_false_spec.
    - apply Substring_toLowerCase in Hd. apply includes_spec in Hd.
      change (toLowerCase "disease") with "disease" in Hd.
      rewrite Hd. now rewrite orb_true_r. }
  repeat split; try assumption.
  unfold askJalAssistant, askJalAssistantWithVoice. now rewrite R.
Qed.

(** C8. The language code has no influence: for any two language codes
    [askJalAssistant] returns the same string and [askJalAssistantWithVoice]
    the same response, and that response is a value whose [audioBase64] and
    [audioMimeType] are absent. *)
Theorem language_code_is_ignored
    (userQuery : string) (contextData : ContextData) (languageCode1 languageCode2 : string) :
  askJalAssistant userQuery contextData languageCode1
  = askJalAssistant userQuery contextData languageCode2
  /\ askJalAssistantWithVoice userQuery contextData languageCode1
     = askJalAssistantWithVoice userQuery contextData languageCode2
  /\ exists response : JalAssistantResponse,
       askJalAssistantWithVoice userQuery contextData languageCode1 = Fulfilled response
       /\ askJalAssistant userQuery contextData languageCode1 = Fulfilled (text response)
       /\ audioBase64 response = None
       /\ audioMimeType response = None.
Proof.
  split; [reflexivity|]. split; [reflexivity|].
  destruct (getOfflineAssistantReply_returns userQuery contextData) as [reply R].
  exists {| text := reply; audioBase64 := None; audioMimeType := None |}.
  unfold askJalAssistant, askJalAssistantWithVoice. rewrite R. simpl. auto.
Qed.

End Assistant.

(** ** suggestPreventiveMeasures *)

(** C5. A name whose lower-cased form contains "cholera" gets the three
    cholera measures, in order; a name whose lower-cased form contains
    neither "cholera" nor "typhoid", the empty name included, gets the three
    default measures, in order; every call is fulfilled with exactly three
    strings. *)
Theorem suggestPreventiveMeasures_selection (diseaseName : string) :
  (Substring "cholera" (toLowerCase diseaseName) ->
   suggestPreventiveMeasures diseaseName
   = Fulfilled ["Use chlorinated drinking water";
                "Wash fruits and utensils with clean water";
                "Use ORS and seek care immediately for severe diarrhea"])
  /\ (~ Substring "cholera" (toLowerCase diseaseName) ->
      ~ Substring "typhoid" (toLowerCase diseaseName) ->
      suggestPreventiveMeasures diseaseName
      = Fulfilled ["Drink boiled or filtered water";
                   "Wash hands with soap before meals";
                   "Avoid uncovered street food"])
  /\ suggestPreventiveMeasures ""
     = Fulfilled ["Drink boiled or filtered water";
                  "Wash hands with soap before meals";
                  "Avoid uncovered street food"]
  /\ exists a b c : string, suggestPreventiveMeasures diseaseName = Fulfilled [a; b; c].
Proof.
  unfold suggestPreventiveMeasures. cbv zeta. split; [|split; [|split]].
  - intros H. apply includes_spec in H. now rewrite H.
  - intros Hc Ht. apply includes_false_spec in Hc, Ht. now rewrite Hc, Ht.
  - reflexivity.
  - destruct (includes (toLowerCase diseaseName) "cholera");
      [|destruct (includes (toLowerCase diseaseName) "typhoid")];
      simpl; do 3 eexists; reflexivity.
Qed.

(** The remaining branch: "typhoid" without "cholera". *)
Lemma suggestPreventiveMeasures_typhoid (diseaseName : string) :
  ~ Substring "cholera" (toLowerCase diseaseName) ->
  Substring "typhoid" (toLowerCase diseaseName) ->
  suggestPreventiveMeasures diseaseName = Fulfilled typhoidMeasures.
Proof.
  intros Hc Ht. apply includes_false_spec in Hc. apply includes_spec in Ht.
  unfold suggestPreventiveMeasures. cbv zeta. now rewrite Hc, Ht.
Qed.

(** ** generateHealthReport *)

(** C6, as amended. [generateHealthReport] is always fulfilled, with the
    text that names the state, its total and a top concern: the name of the
    first entry of the disease list, or the literal "water-borne disease"
    when the list is empty or that name is the empty string, together with
    the count of the first entry, or 0 when the list is empty. *)
Theorem generateHealthReport_text (stateData : StateData.t) :
  let concern :=
    match StateData.diseases stateData with
    | [] => "water-borne disease"
    | d :: _ => if String.eqb (Disease.name d) "" then "water-borne disease" else Disease.name d
    end in
  let count :=
    match StateData.diseases stateData with
    | [] => 0
    | d :: _ => Disease.affected d
    end in
  generateHealthReport stateData
  = Fulfilled ("Offline analysis for " ++ StateData.name stateData
               ++ ": total affected " ++ Z_toString (StateData.totalAffected stateData)
               ++ ". Top concern is " ++ concern
               ++ " with " ++ Z_toString count ++ " reported cases."
               ++ newline ++ newline
               ++ "RECOMMENDATION: Prioritize chlorination checks and ORS stock in high-burden districts this week.").
Proof.
  unfold generateHealthReport, healthReportText. simpl.
  destruct (StateData.diseases stateData) as [|d ds]; simpl; [reflexivity|].
  destruct (Z.eqb_spec (Disease.affected d) 0) as [-> | _]; reflexivity.
Qed.

(** ** getMockAdvancedReport *)

Lemma Qfloor_eq_iff (x : Q) (k : Z) :
  Qfloor x = k <-> (inject_Z k <= x /\ x < inject_Z k + 1)%Q.
Proof.
  split.
  - intros <-. split; [apply Qfloor_le|].
    pose proof (Qlt_floor x) as H. now rewrite inject_Z_plus in H.
  - intros [Hlo Hhi].
    pose proof (Qfloor_le x) as F1. pose proof (Qlt_floor x) as F2.
    rewrite inject_Z_plus in F2. change (inject_Z 1) with 1%Q in F2.
    assert (L1 : (inject_Z k < inject_Z (Qfloor x) + 1)%Q) by lra.
    assert (L2 : (inject_Z (Qfloor x) < inject_Z k + 1)%Q) by lra.
    change 1%Q with (inject_Z 1) in L1, L2. rewrite <- inject_Z_plus in L1, L2.
    rewrite <- Zlt_Qlt in L1, L2. lia.
Qed.

(** The score of a draw: which draws give which score. *)
Lemma mockScore_interval (rnd : Q) (k : Z) :
  mockScore rnd = 50 + k <-> (inject_Z k / 40 <= rnd /\ rnd < (inject_Z k + 1) / 40)%Q.
Proof.
  unfold mockScore.
  assert (E : Qfloor (rnd * 40) + 50 = 50 + k <-> Qfloor (rnd * 40) = k) by lia.
  rewrite E, Qfloor_eq_iff. unfold Qdiv. change (/ 40)%Q with (1 # 40)%Q.
  split; intros [H1 H2]; split; lra.
Qed.

Lemma mockScore_range (rnd : Q) :
  (0 <= rnd)%Q -> (rnd < 1)%Q -> 50 <= mockScore rnd <= 89.
Proof.
  intros H0 H1.
  destruct (proj1 (mockScore_interval rnd (mockScore rnd - 50))) as [Hlo Hhi]; [lia|].
  unfold Qdiv in Hlo, Hhi. change (/ 40)%Q with (1 # 40)%Q in Hlo, Hhi.
  assert (L1 : (inject_Z (-1) < inject_Z (mockScore rnd - 50))%Q).
  { change (inject_Z (-1)) with (-1)%Q. lra. }
  assert (L2 : (inject_Z (mockScore rnd - 50) < inject_Z 40)%Q).
  { change (inject_Z 40) with 40%Q. lra. }
  rewrite <- Zlt_Qlt in L1, L2. lia.
Qed.

(** ** Rounding to doubles *)

Section Binary64Facts.
Import Binary64.
Local Open Scope Q_scope.

Lemma pow2_pos (k : Z) : 0 < 2 ^ k.
Proof. apply Qpower_0_lt. reflexivity. Qed.

Lemma pow2_nonzero (k : Z) : ~ 2 ^ k == 0.
Proof. pose proof (pow2_pos k) as H. intros E. rewrite E in H. discriminate. Qed.

Lemma pow2_inject (k : Z) : (0 <= k)%Z -> inject_Z (2 ^ k) == 2 ^ k.
Proof. intros H. now rewrite Zpower_Qpower. Qed.

Lemma pow2_le (a b : Z) : (a <= b)%Z -> 2 ^ a <= 2 ^ b.
Proof. intros H. apply Qpower_le_compat_l; [assumption | discriminate]. Qed.

Lemma pow2_lt_inv (a b : Z) : 2 ^ a < 2 ^ b -> (a < b)%Z.
Proof. intros H. apply (Qpower_lt_compat_l_inv 2); [assumption | reflexivity]. Qed.

Lemma pow2_succ (k : Z) : 2 ^ (k + 1) == 2 * 2 ^ k.
Proof. rewrite Qpower_plus by discriminate. rewrite Qpower_1_r. ring. Qed.


Lemma Qdiv_le_cross (a b c d : Q) :
  0 < b -> 0 < d -> a * d <= c * b -> a / b <= c / d.
Proof.
  intros Hb Hd H. apply Qle_shift_div_l; [assumption|].
  setoid_replace (a / b * d) with (a * d / b) by (field; intros E; rewrite E in Hb; discriminate).
  apply Qle_shift_div_r; assumption.
Qed.

Lemma Qdiv_lt_cross (a b c d : Q) :
  0 < b -> 0 < d -> a * d < c * b -> a / b < c / d.
Proof.
  intros Hb Hd H. apply Qlt_shift_div_l; [assumption|].
  setoid_replace (a / b * d) with (a * d / b) by (field; intros E; rewrite E in Hb; discriminate).
  apply Qlt_shift_div_r; assumption.
Qed.

Lemma quotient_log2 (n d : Z) :
  (0 < n)%Z -> (0 < d)%Z ->
  let a := (Z.log2 n - Z.log2 d)%Z in
  2 ^ (a - 1) <= inject_Z n / inject_Z d /\ inject_Z n / inject_Z d < 2 ^ (a + 1).
Proof.
  intros Hn Hd a. subst a.
  destruct (Z.log2_spec n Hn) as [Ln Un]. destruct (Z.log2_spec d Hd) as [Ld Ud].
  pose proof (Z.log2_nonneg n) as Nn. pose proof (Z.log2_nonneg d) as Nd.
  rewrite Zle_Qle in Ln, Ld. rewrite Zlt_Qlt in Un, Ud.
  rewrite pow2_inject in Ln, Ld by assumption.
  rewrite pow2_inject in Un, Ud by lia.
  replace (Z.succ (Z.log2 n)) with (Z.log2 n + 1)%Z in Un by lia.
  replace (Z.succ (Z.log2 d)) with (Z.log2 d + 1)%Z in Ud by lia.
  assert (Dpos : 0 < inject_Z d) by (rewrite <- (Zlt_Qlt 0); assumption).
  replace (Z.log2 n - Z.log2 d - 1)%Z with (Z.log2 n - (Z.log2 d + 1))%Z by lia.
  replace (Z.log2 n - Z.log2 d + 1)%Z with ((Z.log2 n + 1) - Z.log2 d)%Z by lia.
  rewrite !Qpower_minus by discriminate.
  pose proof (pow2_pos (Z.log2 d)) as P1. pose proof (pow2_pos (Z.log2 d + 1)) as P2.
  pose proof (pow2_pos (Z.log2 n)) as P3. pose proof (pow2_pos (Z.log2 n + 1)) as P4.
  split.
  - apply Qdiv_le_cross; try assumption. nra.
  - apply Qdiv_lt_cross; try assumption. nra.
Qed.

Lemma binade_bounds (x : Q) :
  0 < x -> 2 ^ binade x <= x /\ x < 2 ^ (binade x + 1).
Proof.
  intros Hx. destruct x as [n d].
  assert (Hn : (0 < n)%Z) by (unfold Qlt in Hx; simpl in Hx; lia).
  destruct (quotient_log2 n (Zpos d) Hn eq_refl) as [Lo Hi].
  rewrite <- Qmake_Qdiv in Lo, Hi.
  unfold binade. cbn [Qnum Qden].
  destruct (Qle_bool (2 ^ (Z.log2 n - Z.log2 (Z.pos d))) (n # d)) eqn:T.
  - apply Qle_bool_iff in T. split; assumption.
  - split; [exact Lo|].
    replace (Z.log2 n - Z.log2 (Z.pos d) - 1 + 1)%Z with (Z.log2 n - Z.log2 (Z.pos d))%Z by lia.
    apply Qnot_le_lt. intros H. apply Qle_bool_iff in H. congruence.
Qed.

Lemma binade_unique (x : Q) (k : Z) :
  2 ^ k <= x -> x < 2 ^ (k + 1) -> binade x = k.
Proof.
  intros Lo Hi.
  assert (Hx : 0 < x) by (eapply Qlt_le_trans; [apply (pow2_pos k) | exact Lo]).
  destruct (binade_bounds x Hx) as [Lo' Hi'].
  assert (A : (k < binade x + 1)%Z).
  { apply pow2_lt_inv. eapply Qle_lt_trans; eassumption. }
  assert (B : (binade x < k + 1)%Z).
  { apply pow2_lt_inv. eapply Qle_lt_trans; eassumption. }
  lia.
Qed.

Lemma roundHalfEven_near (y : Q) :
  y - (1 # 2) <= inject_Z (roundHalfEven y) /\ inject_Z (roundHalfEven y) <= y + (1 # 2).
Proof.
  unfold roundHalfEven. cbv zeta.
  pose proof (Qfloor_le y) as F1. pose proof (Qlt_floor y) as F2.
  rewrite inject_Z_plus in F2. change (inject_Z 1) with 1 in F2.
  destruct (Qcompare (y - inject_Z (Qfloor y)) (1 # 2)) eqn:C.
  - apply Qeq_alt in C. destruct (Z.even (Qfloor y)).
    + split; lra.
    + rewrite inject_Z_plus. change (inject_Z 1) with 1. split; lra.
  - apply Qlt_alt in C. split; lra.
  - apply Qgt_alt in C. rewrite inject_Z_plus. change (inject_Z 1) with 1. split; lra.
Qed.

Lemma roundHalfEven_nonneg (y : Q) : 0 <= y -> (0 <= roundHalfEven y)%Z.
Proof.
  intros Hy.
  assert (F : (0 <= Qfloor y)%Z).
  { rewrite <- (Qfloor_Z 0). now apply Qfloor_resp_le. }
  unfold roundHalfEven. cbv zeta.
  destruct (Qcompare (y - inject_Z (Qfloor y)) (1 # 2)); [destruct (Z.even (Qfloor y))| |]; lia.
Qed.

(** Rounding a positive number moves it by at most half a unit in the last place, and not below zero *)
Lemma roundPositive_near (x : Q) :
  0 < x ->
  0 <= roundPositive x
  /\ x - (1 # 2) * 2 ^ ulpExponent x <= roundPositive x
  /\ roundPositive x <= x + (1 # 2) * 2 ^ ulpExponent x.
Proof.
  intros Hx. unfold roundPositive. cbv zeta.
  set (e := ulpExponent x).
  pose proof (pow2_pos e) as P.
  assert (Hy : 0 <= x / 2 ^ e).
  { apply Qle_shift_div_l; [assumption|]. lra. }
  destruct (roundHalfEven_near (x / 2 ^ e)) as [Lo Hi].
  pose proof (roundHalfEven_nonneg _ Hy) as Nn. rewrite Zle_Qle in Nn.
  set (m := inject_Z (roundHalfEven (x / 2 ^ e))) in *.
  assert (E : x == x / 2 ^ e * 2 ^ e) by (field; apply pow2_nonzero).
  set (y := x / 2 ^ e) in *. set (p := 2 ^ e) in *.
  change (inject_Z 0) with 0 in Nn.
  clearbody p m y. clear Hy e.
  repeat split.
  - nra.
  - rewrite E. nra.
  - rewrite E. nra.
Qed.

Lemma ulpExponent_below_64 (x : Q) : 0 < x -> x < 64 -> (ulpExponent x <= -47)%Z.
Proof.
  intros Hx H64. destruct (binade_bounds x Hx) as [Lo _].
  assert (B : (binade x < 6)%Z).
  { apply pow2_lt_inv. eapply Qle_lt_trans; [exact Lo|]. exact H64. }
  unfold ulpExponent. lia.
Qed.

(** The product of a draw by 40: between 0 and 40, 40 excluded, for every draw up to the greatest double below 1 *)
Lemma mul_40_range (rnd : Q) :
  0 <= rnd -> rnd <= 1 - 2 ^ (-53) ->
  0 <= mul rnd 40 /\ mul rnd 40 < 40.
Proof.
  intros H0 H1. unfold mul, round.
  change (2 ^ (-53)) with (1 # 9007199254740992) in H1.
  destruct (Qcompare (rnd * 40) 0) eqn:C.
  - split; [apply Qle_refl | reflexivity].
  - apply Qlt_alt in C. lra.
  - apply Qgt_alt in C.
    destruct (roundPositive_near (rnd * 40) C) as [Nn [_ Hi]].
    split; [exact Nn|].
    assert (E : (ulpExponent (rnd * 40) <= -47)%Z) by (apply ulpExponent_below_64; lra).
    apply pow2_le in E. change (2 ^ (-47)) with (1 # 140737488355328) in E.
    set (p := 2 ^ ulpExponent (rnd * 40)) in *. clearbody p. lra.
Qed.

Lemma mockScore64_range (rnd : Q) :
  0 <= rnd -> rnd <= 1 - 2 ^ (-53) -> (50 <= mockScore64 rnd <= 89)%Z.
Proof.
  intros H0 H1. destruct (mul_40_range rnd H0 H1) as [Lo Hi].
  unfold mockScore64.
  assert (A : (0 <= Qfloor (mul rnd 40))%Z).
  { rewrite <- (Qfloor_Z 0). now apply Qfloor_resp_le. }
  assert (B : (Qfloor (mul rnd 40) < 40)%Z).
  { rewrite Zlt_Qlt. eapply Qle_lt_trans; [apply Qfloor_le | exact Hi]. }
  lia.
Qed.

(** A double below 1 is at most the greatest double below 1. *)
Lemma representable_below_one (rnd : Q) :
  Representable rnd -> rnd < 1 -> rnd <= 1 - 2 ^ (-53).
Proof.
  intros R H1. apply Qnot_lt_le. intros H.
  change (2 ^ (-53)) with (1 # 9007199254740992) in H.
  assert (Hp : 0 < rnd) by lra.
  assert (B : binade rnd = (-1)%Z).
  { apply binade_unique.
    - change (2 ^ (-1)) with (1 # 2). lra.
    - change (2 ^ (-1 + 1)) with 1. exact H1. }
  unfold Representable, round in R.
  destruct (Qcompare rnd 0) eqn:C.
  - apply Qeq_alt in C. lra.
  - apply Qlt_alt in C. lra.
  - unfold roundPositive, ulpExponent in R. rewrite B in R. cbv zeta in R.
    change (Z.max (-1 - 52) (-1074)) with (-53)%Z in R.
    change (2 ^ (-53)) with (1 # 9007199254740992) in R.
    set (m := roundHalfEven (rnd / (1 # 9007199254740992))) in R.
    assert (L1 : inject_Z (9007199254740992 - 1) < inject_Z m).
    { change (inject_Z (9007199254740992 - 1)) with 9007199254740991. lra. }
    assert (L2 : inject_Z m < inject_Z 9007199254740992).
    { change (inject_Z 9007199254740992) with 9007199254740992. lra. }
    rewrite <- Zlt_Qlt in L1, L2. lia.
Qed.

End Binary64Facts.

(** The report of [getMockAdvancedReport] is the report built from its
    score. *)
Lemma getMockAdvancedReport_of_score
    (rnd : Q) (reportType : string) (location : MockLocation.t) :
  getMockAdvancedReport rnd reportType location
  = mockReportOfScore (mockScore rnd) reportType location.
Proof. reflexivity. Qed.

(** C7, as amended. For every draw that is a double of [0, 1), every
    report type and location, with the product of line 85 rounded as the
    multiplication of doubles rounds it: the score is
    50 + floor(draw * 40), an integer of [50, 89], so that 90 is never
    produced; [overall_status] is "Safe" exactly when the score is above 75
    and "Caution" otherwise; [is_simulated] is true; there are four key
    metrics. *)
Theorem getMockAdvancedReport_shape
    (rnd : Q) (reportType : string) (location : MockLocation.t) :
  Binary64.Representable rnd -> (0 <= rnd)%Q -> (rnd < 1)%Q ->
  let report := getMockAdvancedReport64 rnd reportType location in
  Report.score report = 50 + Qfloor (Binary64.mul rnd 40)
  /\ 50 <= Report.score report <= 89
  /\ (Report.overall_status report = "Safe" <-> 75 < Report.score report)
  /\ (Report.overall_status report = "Caution" <-> ~ 75 < Report.score report)
  /\ Report.is_simulated report = true
  /\ length (Report.key_metrics report) = 4%nat.
Proof.
  intros R H0 H1 report. subst report.
  pose proof (mockScore64_range rnd H0 (representable_below_one rnd R H1)) as Range.
  unfold getMockAdvancedReport64.
  cbn [mockReportOfScore Report.score Report.overall_status Report.is_simulated
       Report.key_metrics length].
  split; [unfold mockScore64; lia|].
  split; [exact Range|].
  destruct (Z.ltb_spec 75 (mockScore64 rnd)) as [H | H].
  - repeat split; try reflexivity; try discriminate; intros; try assumption; lia.
  - repeat split; try reflexivity; try discriminate; intros; try assumption; lia.
Qed.

(** C10. When the lower-cased report type matches the water keywords and
    the disease keywords at once, the report is the one of the water bucket:
    its verdict, its summary and its four key metrics. *)
Theorem getMockAdvancedReport_water_priority
    (rnd : Q) (reportType : string) (location : MockLocation.t) :
  Substring "water" (toLowerCase reportType)
  \/ Substring "groundwater" (toLowerCase reportType) ->
  Substring "disease" (toLowerCase reportType)
  \/ Substring "hospital" (toLowerCase reportType) ->
  let report := getMockAdvancedReport rnd reportType location in
  let isSafe := 75 <? Report.score report in
  Report.verdict report = (if isSafe then "Safe for Consumption" else "Requires Filtration")
  /\ Report.summary report
     = "This is a simulated report for " ++ MockLocation.city location
       ++ " because the AI service is currently unreachable (likely Free Tier rate limit). Data suggests "
       ++ (if isSafe then "water parameters are within acceptable limits."
           else "turbidity levels are slightly high, boiling advised.")
  /\ Report.key_metrics report
     = [ {| Metric.name := "pH Level"; Metric.value := "7.4"; Metric.unit := "";
            Metric.status := "Neutral" |};
         {| Metric.name := "Turbidity"; Metric.value := "12"; Metric.unit := "NTU";
            Metric.status := "Bad" |};
         {| Metric.name := "Dissolved Oxygen"; Metric.value := "6.2"; Metric.unit := "mg/L";
            Metric.status := "Good" |};
         {| Metric.name := "E. Coli"; Metric.value := "4"; Metric.unit := "CFU";
            Metric.status := "Good" |} ].
Proof.
  intros Hw _ report isSafe. subst isSafe report.
  assert (W : mockIsWater reportType = true).
  { unfold mockIsWater. apply orb_true_iff.
    destruct Hw as [H | H]; [left | right]; now apply includes_spec. }
  unfold getMockAdvancedReport. cbv zeta. rewrite W.
  cbn [Report.verdict Report.summary Report.key_metrics Report.score].
  repeat split.
Qed.

(** ** The caller's arrays are left as they were *)

Lemma firstn_length_app {A : Type} (l ext : list A) :
  firstn (length l) (l ++ ext)%list = l.
Proof. induction l as [|x l IH]; simpl; [now destruct ext | now rewrite IH]. Qed.

Lemma nth_error_length_app {A : Type} (l : list A) (x : A) :
  nth_error (l ++ [x])%list (length l) = Some x.
Proof. induction l as [|y l IH]; simpl; [reflexivity | assumption]. Qed.

Lemma list_set_length_app {A : Type} (l : list A) (x y : A) :
  list_set (length l) y (l ++ [x])%list = (l ++ [y])%list.
Proof. induction l as [|z l IH]; simpl; [reflexivity | now rewrite IH]. Qed.

Lemma Preserved_iff (st st' : Store) :
  Preserved st st'
  <-> (exists fresh, stateArrays st' = (stateArrays st ++ fresh)%list)
      /\ reportArrays st' = reportArrays st.
Proof.
  unfold Preserved. split; intros [H1 H2]; split; try assumption.
  - exists (skipn (length (stateArrays st)) (stateArrays st')).
    pose proof (firstn_skipn (length (stateArrays st)) (stateArrays st')) as F.
    rewrite H1 in F. now symmetry.
  - destruct H1 as [fresh ->]. apply firstn_length_app.
Qed.

Lemma Preserved_refl (st : Store) : Preserved st st.
Proof. apply Preserved_iff. split; [exists []; now rewrite app_nil_r | reflexivity]. Qed.

Lemma Preserved_trans (st1 st2 st3 : Store) :
  Preserved st1 st2 -> Preserved st2 st3 -> Preserved st1 st3.
Proof.
  rewrite !Preserved_iff. intros [[f1 E1] R1] [[f2 E2] R2]. split.
  - exists (f1 ++ f2)%list. now rewrite E2, E1, app_assoc.
  - congruence.
Qed.

Lemma Frames_ret {A : Type} (a : A) : Frames (ret a).
Proof. intros st. apply Preserved_refl. Qed.

Lemma Frames_liftC {A : Type} (c : Completion A) : Frames (liftC c).
Proof. intros st. apply Preserved_refl. Qed.

Lemma Frames_bindE {A B : Type} (c : Eff A) (k : A -> Eff B) :
  Frames c -> (forall a, Frames (k a)) -> Frames (bindE c k).
Proof.
  intros Hc Hk st. unfold bindE. specialize (Hc st).
  destruct (c st) as [[a | e] st']; simpl in *.
  - eapply Preserved_trans; [exact Hc | apply Hk].
  - exact Hc.
Qed.

Lemma Frames_asyncE {A : Type} (c : Eff A) : Frames c -> Frames (asyncE c).
Proof.
  intros Hc st. unfold asyncE. specialize (Hc st). now destruct (c st) as [r st'].
Qed.

Lemma Frames_console_info (line : string) : Frames (console_info line).
Proof. intros st. apply Preserved_iff. split; [exists []; simpl; now rewrite app_nil_r | reflexivity]. Qed.

(** What a run of the stateful [getTopStateSummary] does: it returns what
    the function returns on the elements of the array, and when the array is
    not empty it leaves one new array, the sorted copy, after the arrays of
    the caller. *)
Lemma Stateful_getTopStateSummary_run (states : ref) (st : Store) (l : list StateData.t) :
  nth_error (stateArrays st) states = Some l ->
  Stateful.getTopStateSummary states st
  = (getTopStateSummary l,
     if (length l =? 0)%nat then st
     else {| stateArrays := stateArrays st ++ [Array_sort byTotalAffectedDesc l];
             reportArrays := reportArrays st;
             console := console st |}).
Proof.
  intros E.
  unfold Stateful.getTopStateSummary, getTopStateSummary, stateArray_length,
    stateArray_read, bindE, ret.
  rewrite E. destruct (length l =? 0)%nat; [reflexivity|].
  unfold stateArray_spread. rewrite E.
  unfold stateArray_sort. cbn [stateArrays reportArrays console].
  rewrite nth_error_length_app, list_set_length_app.
  unfold stateArray_index, stateArray_read, bindE, ret. cbn [stateArrays].
  rewrite nth_error_length_app. unfold liftC, bind.
  destruct (deref (nth_error (Array_sort byTotalAffectedDesc l) 0)); reflexivity.
Qed.

Lemma Stateful_getTopStateSummary_invalid (states : ref) (st : Store) :
  nth_error (stateArrays st) states = None ->
  Stateful.getTopStateSummary states st = (Throw invalidRef, st).
Proof.
  intros E.
  unfold Stateful.getTopStateSummary, stateArray_length, stateArray_read, bindE.
  now rewrite E.
Qed.

Lemma Frames_getTopStateSummary (states : ref) : Frames (Stateful.getTopStateSummary states).
Proof.
  intros st. destruct (nth_error (stateArrays st) states) as [l|] eqn:E.
  - rewrite (Stateful_getTopStateSummary_run states st l E). simpl.
    destruct (length l =? 0)%nat; [apply Preserved_refl|].
    apply Preserved_iff. split; [now eexists | reflexivity].
  - rewrite (Stateful_getTopStateSummary_invalid states st E). apply Preserved_refl.
Qed.

Section StatefulAssistant.
Context {fmt : NumberFormat}.

Lemma Stateful_getRecentWaterSummary_run
    (reports : ref) (st : Store) (l : list WaterQualityReport.t) :
  nth_error (reportArrays st) reports = Some l ->
  Stateful.getRecentWaterSummary reports st = (getRecentWaterSummary l, st).
Proof.
  intros E.
  unfold Stateful.getRecentWaterSummary, getRecentWaterSummary, reportArray_length,
    reportArray_index, reportArray_read, bindE, ret.
  rewrite E. destruct (length l =? 0)%nat; [reflexivity|].
  rewrite E. unfold liftC, bind.
  destruct (deref (nth_error l (length l - 1))); reflexivity.
Qed.

Lemma Stateful_getRecentWaterSummary_invalid (reports : ref) (st : Store) :
  nth_error (reportArrays st) reports = None ->
  Stateful.getRecentWaterSummary reports st = (Throw invalidRef, st).
Proof.
  intros E.
  unfold Stateful.getRecentWaterSummary, reportArray_length, reportArray_read, bindE.
  now rewrite E.
Qed.

Lemma Frames_getRecentWaterSummary (reports : ref) :
  Frames (Stateful.getRecentWaterSummary reports).
Proof.
  intros st. destruct (nth_error (reportArrays st) reports) as [l|] eqn:E.
  - rewrite (Stateful_getRecentWaterSummary_run reports st l E). apply Preserved_refl.
  - rewrite (Stateful_getRecentWaterSummary_invalid reports st E). apply Preserved_refl.
Qed.

Lemma Frames_getOfflineAssistantReply (userQuery : string) (contextData : ContextRefs) :
  Frames (Stateful.getOfflineAssistantReply userQuery contextData).
Proof.
  unfold Stateful.getOfflineAssistantReply. cbv zeta.
  repeat match goal with |- context [if ?b then _ else _] => destruct b end;
    repeat first [ apply Frames_ret
                 | apply Frames_getTopStateSummary
                 | apply Frames_getRecentWaterSummary
                 | apply Frames_bindE; [|intros ?] ].
Qed.

(** The stateful assistant computes the reply of the assistant on the
    elements of the two arrays. *)
Lemma Stateful_getOfflineAssistantReply_refines
    (userQuery : string) (contextData : ContextRefs) (st : Store)
    (l : list StateData.t) (r : list WaterQualityReport.t) :
  nth_error (stateArrays st) (statesRef contextData) = Some l ->
  nth_error (reportArrays st) (reportsRef contextData) = Some r ->
  fst (Stateful.getOfflineAssistantReply userQuery contextData st)
  = getOfflineAssistantReply userQuery {| states := l; reports := r |}.
Proof.
  intros El Er.
  assert (Er' : forall st', reportArrays st' = reportArrays st ->
                Stateful.getRecentWaterSummary (reportsRef contextData) st'
                = (getRecentWaterSummary r, st')).
  { intros st' H. apply Stateful_getRecentWaterSummary_run. now rewrite H. }
  unfold Stateful.getOfflineAssistantReply, getOfflineAssistantReply. cbv zeta.
  cbn [states reports].
  repeat match goal with |- context [if ?b then _ else _] => destruct b end;
    try reflexivity;
    unfold bindE;
    rewrite ?(Stateful_getTopStateSummary_run _ st l El);
    try (destruct (getTopStateSummary l) as [top | e]; [|reflexivity]);
    rewrite Er' by (destruct (length l =? 0)%nat; reflexivity);
    simpl; destruct (getRecentWaterSummary r); reflexivity.
Qed.

End StatefulAssistant.

Section StatefulExports.
Context {fmt : NumberFormat}.

Lemma Stateful_askJalAssistantWithVoice_refines
    (userQuery languageCode : string) (contextData : ContextRefs) (st : Store)
    (l : list StateData.t) (r : list WaterQualityReport.t) :
  nth_error (stateArrays st) (statesRef contextData) = Some l ->
  nth_error (reportArrays st) (reportsRef contextData) = Some r ->
  fst (Stateful.askJalAssistantWithVoice userQuery contextData languageCode st)
  = Normal (askJalAssistantWithVoice userQuery {| states := l; reports := r |} languageCode).
Proof.
  intros El Er.
  pose proof (Stateful_getOfflineAssistantReply_refines userQuery contextData st l r El Er) as R.
  unfold Stateful.askJalAssistantWithVoice, askJalAssistantWithVoice, asyncE, bindE.
  rewrite <- R.
  destruct (Stateful.getOfflineAssistantReply userQuery contextData st) as [[reply | e] st'];
    reflexivity.
Qed.

Lemma Stateful_askJalAssistant_refines
    (userQuery languageCode : string) (contextData : ContextRefs) (st : Store)
    (l : list StateData.t) (r : list WaterQualityReport.t) :
  nth_error (stateArrays st) (statesRef contextData) = Some l ->
  nth_error (reportArrays st) (reportsRef contextData) = Some r ->
  fst (Stateful.askJalAssistant userQuery contextData languageCode st)
  = Normal (askJalAssistant userQuery {| states := l; reports := r |} languageCode).
Proof.
  intros El Er.
  pose proof (Stateful_askJalAssistantWithVoice_refines
                userQuery languageCode contextData st l r El Er) as R.
  unfold Stateful.askJalAssistant, askJalAssistant, asyncE, bindE, liftC.
  destruct (Stateful.askJalAssistantWithVoice userQuery contextData languageCode st)
    as [[p | e] st']; simpl in R; [|discriminate].
  injection R as ->.
  destruct (await (askJalAssistantWithVoice userQuery {| states := l; reports := r |}
                     languageCode)); reflexivity.
Qed.

(** C9. No call of an exported function changes an array of the caller:
    after [askJalAssistant], [askJalAssistantWithVoice],
    [generateHealthReport], [suggestPreventiveMeasures] and
    [getAdvancedReport], every array of states and of reports that the store
    held before the call is in it with the same records in the same order.
    In particular [getTopStateSummary] sorts a copy: on a non-empty array
    the only change to the store is one new array, the sorted copy. *)
Theorem exported_calls_preserve_the_arrays
    (st : Store) (userQuery languageCode diseaseName reportType : string)
    (contextData : ContextRefs) (stateData : StateData.t)
    (rnd : Q) (location : Location.t) :
  Preserved st (snd (Stateful.askJalAssistant userQuery contextData languageCode st))
  /\ Preserved st (snd (Stateful.askJalAssistantWithVoice userQuery contextData languageCode st))
  /\ Preserved st (snd (Stateful.generateHealthReport stateData st))
  /\ Preserved st (snd (Stateful.suggestPreventiveMeasures diseaseName st))
  /\ Preserved st (snd (Stateful.getAdvancedReport rnd reportType location st))
  /\ Preserved st (snd (Stateful.getTopStateSummary (statesRef contextData) st))
  /\ (forall l : list StateData.t,
        nth_error (stateArrays st) (statesRef contextData) = Some l ->
        l <> [] ->
        let st' := snd (Stateful.getTopStateSummary (statesRef contextData) st) in
        stateArrays st' = (stateArrays st ++ [Array_sort byTotalAffectedDesc l])%list
        /\ nth_error (stateArrays st') (statesRef contextData) = Some l
        /\ reportArrays st' = reportArrays st
        /\ console st' = console st).
Proof.
  assert (V : Frames (Stateful.askJalAssistantWithVoice userQuery contextData languageCode)).
  { apply Frames_asyncE, Frames_bindE; [apply Frames_getOfflineAssistantReply|].
    intros reply. apply Frames_ret. }
  split.
  { apply Frames_asyncE, Frames_bindE; [exact V|]. intros p.
    apply Frames_bindE; [apply Frames_liftC | intros result; apply Frames_ret]. }
  split; [apply V|].
  split; [apply Frames_ret|].
  split; [apply Frames_ret|].
  split.
  { apply Frames_asyncE, Frames_bindE; [apply Frames_console_info | intros u; apply Frames_ret]. }
  split; [apply Frames_getTopStateSummary|].
  intros l E Hne st'. subst st'.
  rewrite (Stateful_getTopStateSummary_run _ st l E).
  destruct l as [|s ss]; [contradiction|]. simpl.
  repeat split. rewrite nth_error_app1; [assumption|].
  apply nth_error_Some. congruence.
Qed.

End StatefulExports.

(** ** Worked examples *)

Example toLowerCase_ex : toLowerCase "What is the safe pH range?" = "what is the safe ph range?".
Proof. reflexivity. Qed.

Example Z_toString_ex : Z_toString 120 = "120" /\ Z_toString 0 = "0" /\ Z_toString (-5) = "-5".
Proof. repeat split. Qed.

Example decimal_toString_ex :
  decimal_toString 7.4 = "7.4" /\ decimal_toString 2 = "2"
  /\ decimal_toString 6.5 = "6.5" /\ decimal_toString (-(1 # 4)) = "-0.25".
Proof. repeat split. Qed.

(** Among the states with the greatest total the first one is named. *)
Example getTopStateSummary_ex :
  getTopStateSummary sampleStates
  = Normal "Bihar currently has the highest reported disease burden with 340 affected cases.".
Proof. reflexivity. Qed.

Example getRecentWaterSummary_ex :
  getRecentWaterSummary (fmt := decimal_format) (reports sampleContext)
  = Normal "Latest site Brahmaputra Ghat (River) shows pH 7.4 and turbidity 2 NTU, which within safe range.".
Proof. reflexivity. Qed.

(** The three readings of the specification: pH 7.0 and turbidity 2; pH 9.0
    and turbidity 2; pH 7.0 and turbidity 6.  The two ends of the pH range
    are safe, turbidity 5 is not. *)
Example verdictOf_ex :
  verdictOf (reading 7.0 2) = "within safe range"
  /\ verdictOf (reading 9.0 2) = "needs attention"
  /\ verdictOf (reading 7.0 6) = "needs attention"
  /\ verdictOf (reading 6.5 2) = "within safe range"
  /\ verdictOf (reading 8.5 2) = "within safe range"
  /\ verdictOf (reading 7.0 5) = "needs attention".
Proof. repeat split. Qed.

Example getOfflineAssistantReply_ex :
  getOfflineAssistantReply (fmt := decimal_format) "What is the safe pH range?" sampleContext
  = Normal "The safe pH range for drinking water is 6.5 to 8.5."
  /\ getOfflineAssistantReply (fmt := decimal_format) "Is the water clean?" sampleContext
     = Normal "Latest site Brahmaputra Ghat (River) shows pH 7.4 and turbidity 2 NTU, which within safe range."
  /\ getOfflineAssistantReply (fmt := decimal_format) "hello" sampleContext
     = Normal "I am running in offline mode without external AI APIs. Bihar currently has the highest reported disease burden with 340 affected cases. Latest site Brahmaputra Ghat (River) shows pH 7.4 and turbidity 2 NTU, which within safe range.".
Proof. repeat split. Qed.

Example suggestPreventiveMeasures_ex :
  suggestPreventiveMeasures "Cholera outbreak" = Fulfilled choleraMeasures
  /\ suggestPreventiveMeasures "flu" = Fulfilled defaultMeasures
  /\ suggestPreventiveMeasures "TYPHOID" = Fulfilled typhoidMeasures.
Proof. repeat split. Qed.

Example generateHealthReport_ex :
  generateHealthReport assam
  = Fulfilled ("Offline analysis for Assam: total affected 120. Top concern is Cholera with 70 reported cases."
               ++ newline ++ newline ++ recommendationParagraph)
  /\ generateHealthReport kerala
     = Fulfilled ("Offline analysis for Kerala: total affected 340. Top concern is water-borne disease with 0 reported cases."
                  ++ newline ++ newline ++ recommendationParagraph).
Proof. repeat split. Qed.

Example getMockAdvancedReport_ex :
  let report := getMockAdvancedReport 0.9 "Groundwater Test" {| MockLocation.city := "X" |} in
  Report.score report = 86
  /\ Report.overall_status report = "Safe"
  /\ Report.verdict report = "Safe for Consumption"
  /\ Report.title report = "Groundwater Test - Simulated Analysis".
Proof. repeat split. Qed.

(** Sorting the array of the caller itself, without the copy, would show:
    the first array of the store is reordered. *)
Example sort_in_place_is_visible :
  let st := {| stateArrays := [sampleStates]; reportArrays := []; console := [] |} in
  stateArrays (snd (stateArray_sort byTotalAffectedDesc 0%nat st)) = [[bihar; kerala; assam]]
  /\ stateArrays (snd (Stateful.getTopStateSummary 0%nat st))
     = [sampleStates; [bihar; kerala; assam]].
Proof. repeat split. Qed.

Example Stateful_askJalAssistant_ex :
  Stateful.askJalAssistant (fmt := decimal_format) "disease burden"
    {| statesRef := 0%nat; reportsRef := 0%nat |} "hi" sampleStore
  = (Normal (Fulfilled "Bihar currently has the highest reported disease burden with 340 affected cases. Latest site Brahmaputra Ghat (River) shows pH 7.4 and turbidity 2 NTU, which within safe range."),
     {| stateArrays := [sampleStates; [bihar; kerala; assam]];
        reportArrays := [[wellReport; riverReport]];
        console := [] |}).
Proof. reflexivity. Qed.

(** ** Instances of the theorems, and the inputs that refute the claims as
    they were first stated *)

Lemma getOfflineAssistantReply_pH_priority_witness :
  (Substring "ph" (toLowerCase "Which state has safe pH water?")
   \/ Substring "safe range" (toLowerCase "Which state has safe pH water?"))
  /\ getOfflineAssistantReply (fmt := decimal_format) "Which state has safe pH water?"
       sampleContext
     = Normal "The safe pH range for drinking water is 6.5 to 8.5.".
Proof.
  assert (H : Substring "ph" (toLowerCase "Which state has safe pH water?")).
  { apply includes_spec. reflexivity. }
  split; [now left|].
  apply (getOfflineAssistantReply_pH_priority (fmt := decimal_format)). now left.
Defined.

(** The query "typhoid disease" contains "disease", and "ph" too: the reply
    is the pH sentence and not the two summaries, joined or not by a
    space. *)
Lemma disease_query_with_ph_counterexample :
  Substring "disease" "typhoid disease"
  /\ states sampleContext <> []
  /\ reports sampleContext <> []
  /\ getOfflineAssistantReply (fmt := decimal_format) "typhoid disease" sampleContext
     = Normal "The safe pH range for drinking water is 6.5 to 8.5."
  /\ askJalAssistant (fmt := decimal_format) "typhoid disease" sampleContext "en"
     = Fulfilled "The safe pH range for drinking water is 6.5 to 8.5."
  /\ exists top water : string,
       getTopStateSummary (states sampleContext) = Normal top
       /\ getRecentWaterSummary (fmt := decimal_format) (reports sampleContext) = Normal water
       /\ getOfflineAssistantReply (fmt := decimal_format) "typhoid disease" sampleContext
          <> Normal (top ++ water)
       /\ getOfflineAssistantReply (fmt := decimal_format) "typhoid disease" sampleContext
          <> Normal (top ++ " " ++ water).
Proof.
  split; [apply includes_spec; reflexivity|].
  split; [discriminate|]. split; [discriminate|].
  split; [reflexivity|]. split; [reflexivity|].
  eexists. eexists. split; [reflexivity|]. split; [reflexivity|].
  split; discriminate.
Qed.

(** Without "ph" the two summaries are joined by one space, which the plain
    concatenation lacks. *)
Lemma disease_query_space_counterexample :
  Substring "disease" "disease burden"
  /\ exists top water : string,
       getTopStateSummary (states sampleContext) = Normal top
       /\ getRecentWaterSummary (fmt := decimal_format) (reports sampleContext) = Normal water
       /\ getOfflineAssistantReply (fmt := decimal_format) "disease burden" sampleContext
          = Normal (top ++ " " ++ water)
       /\ getOfflineAssistantReply (fmt := decimal_format) "disease burden" sampleContext
          <> Normal (top ++ water).
Proof.
  split; [apply includes_spec; reflexivity|].
  eexists. eexists. split; [reflexivity|]. split; [reflexivity|].
  split; [reflexivity | discriminate].
Qed.

Lemma getOfflineAssistantReply_disease_branch_witness :
  (Substring "disease" "disease burden"
   /\ ~ Substring "ph" (toLowerCase "disease burden")
   /\ ~ Substring "safe range" (toLowerCase "disease burden")
   /\ states sampleContext <> []
   /\ reports sampleContext <> [])
  /\ exists top water : string,
       getTopStateSummary (states sampleContext) = Normal top
       /\ getRecentWaterSummary (fmt := decimal_format) (reports sampleContext) = Normal water
       /\ getOfflineAssistantReply (fmt := decimal_format) "disease burden" sampleContext
          = Normal (top ++ " " ++ water)
       /\ askJalAssistant (fmt := decimal_format) "disease burden" sampleContext "en"
          = Fulfilled (top ++ " " ++ water).
Proof.
  assert (H1 : Substring "disease" "disease burden") by (apply includes_spec; reflexivity).
  assert (H2 : ~ Substring "ph" (toLowerCase "disease burden"))
    by (apply includes_false_spec; reflexivity).
  assert (H3 : ~ Substring "safe range" (toLowerCase "disease burden"))
    by (apply includes_false_spec; reflexivity).
  assert (H4 : states sampleContext <> []) by discriminate.
  assert (H5 : reports sampleContext <> []) by discriminate.
  split; [repeat split; assumption|].
  exact (getOfflineAssistantReply_disease_branch (fmt := decimal_format)
           "disease burden" "en" sampleContext H1 H2 H3 H4 H5).
Defined.

(** The first entry of the disease list of [bihar] has the empty name and
    7 cases: the report names "water-borne disease", with 7 cases, and is
    not the text that names the entry. *)
Lemma generateHealthReport_empty_name_counterexample :
  nth_error (StateData.diseases bihar) 0 = Some {| Disease.name := ""; Disease.affected := 7 |}
  /\ generateHealthReport bihar
     = Fulfilled ("Offline analysis for Bihar: total affected 340. Top concern is water-borne disease with 7 reported cases."
                  ++ newline ++ newline ++ recommendationParagraph)
  /\ generateHealthReport bihar
     <> Fulfilled ("Offline analysis for Bihar: total affected 340. Top concern is  with 7 reported cases."
                   ++ newline ++ newline ++ recommendationParagraph).
Proof. split; [reflexivity|]. split; [reflexivity | discriminate]. Qed.

(** No draw gives the score 90: the greatest double below 1 gives 89, and so
    does every draw from 39/40 on. *)
Lemma mock_score_90_counterexample :
  Report.score (getMockAdvancedReport (1 - (1 # 9007199254740992)) "Groundwater Test"
                  {| MockLocation.city := "X" |}) = 89
  /\ (forall (rnd : Q) (reportType : string) (location : MockLocation.t),
        (0 <= rnd)%Q -> (rnd < 1)%Q ->
        Report.score (getMockAdvancedReport rnd reportType location) <> 90)
  /\ (forall (rnd : Q) (reportType : string) (location : MockLocation.t),
        (39 # 40 <= rnd)%Q -> (rnd < 1)%Q ->
        Report.score (getMockAdvancedReport rnd reportType location) = 89).
Proof.
  split; [reflexivity|]. split.
  - intros rnd reportType location H0 H1. cbn [getMockAdvancedReport Report.score].
    pose proof (mockScore_range rnd H0 H1). lia.
  - intros rnd reportType location H0 H1. cbn [getMockAdvancedReport Report.score].
    change 89 with (50 + 39). apply mockScore_interval.
    unfold Qdiv. change (/ 40)%Q with (1 # 40)%Q. change (inject_Z 39) with 39%Q.
    split; lra.
Qed.

(** On doubles too no draw gives the score 90: the greatest double below 1
    gives 89, and every double of [0, 1) a score other than 90. *)
Lemma mock_score_90_on_doubles_counterexample :
  Binary64.Representable double_below_1
  /\ (0 <= double_below_1)%Q /\ (double_below_1 < 1)%Q
  /\ Report.score (getMockAdvancedReport64 double_below_1 "Groundwater Test"
                     {| MockLocation.city := "X" |}) = 89
  /\ (forall (rnd : Q) (reportType : string) (location : MockLocation.t),
        Binary64.Representable rnd -> (0 <= rnd)%Q -> (rnd < 1)%Q ->
        Report.score (getMockAdvancedReport64 rnd reportType location) <> 90).
Proof.
  split; [unfold Binary64.Representable, Qeq; vm_compute; reflexivity|].
  split; [unfold Qle; simpl; lia|].
  split; [unfold Qlt; simpl; lia|].
  split; [vm_compute; reflexivity|].
  intros rnd reportType location R H0 H1.
  pose proof (mockScore64_range rnd H0 (representable_below_one rnd R H1)) as Range.
  unfold getMockAdvancedReport64. cbn [mockReportOfScore Report.score]. lia.
Qed.

(** At the double nearest to 0.7 the product rounds to 28: the score on
    doubles is 78, where the exact product, just below 28, gives 77. *)
Example mockScore64_at_double_0_7 :
  mockScore64 double_0_7 = 78 /\ mockScore double_0_7 = 77
  /\ mockScore64 double_below_1 = 89 /\ mockScore64 0 = 50.
Proof. repeat split; vm_compute; reflexivity. Qed.

Lemma getMockAdvancedReport_shape_witness :
  (Binary64.Representable double_0_7 /\ (0 <= double_0_7)%Q /\ (double_0_7 < 1)%Q)
  /\ let report :=
       getMockAdvancedReport64 double_0_7 "Groundwater Test" {| MockLocation.city := "X" |} in
     Report.score report = 50 + Qfloor (Binary64.mul double_0_7 40)
     /\ 50 <= Report.score report <= 89
     /\ (Report.overall_status report = "Safe" <-> 75 < Report.score report)
     /\ (Report.overall_status report = "Caution" <-> ~ 75 < Report.score report)
     /\ Report.is_simulated report = true
     /\ length (Report.key_metrics report) = 4%nat.
Proof.
  assert (R : Binary64.Representable double_0_7).
  { unfold Binary64.Representable, Qeq. vm_compute. reflexivity. }
  assert (H0 : (0 <= double_0_7)%Q) by (unfold Qle; simpl; lia).
  assert (H1 : (double_0_7 < 1)%Q) by (unfold Qlt; simpl; lia).
  split; [repeat split; assumption|].
  exact (getMockAdvancedReport_shape double_0_7 "Groundwater Test"
           {| MockLocation.city := "X" |} R H0 H1).
Defined.

Lemma getMockAdvancedReport_water_priority_witness :
  ((Substring "water" (toLowerCase "Waterborne Disease")
    \/ Substring "groundwater" (toLowerCase "Waterborne Disease"))
   /\ (Substring "disease" (toLowerCase "Waterborne Disease")
       \/ Substring "hospital" (toLowerCase "Waterborne Disease")))
  /\ let report :=
       getMockAdvancedReport 0.5 "Waterborne Disease" {| MockLocation.city := "Guwahati" |} in
     Report.verdict report = "Requires Filtration"
     /\ Report.summary report
        = "This is a simulated report for Guwahati because the AI service is currently unreachable (likely Free Tier rate limit). Data suggests turbidity levels are slightly high, boiling advised."
     /\ Report.key_metrics report
        = [ {| Metric.name := "pH Level"; Metric.value := "7.4"; Metric.unit := "";
               Metric.status := "Neutral" |};
            {| Metric.name := "Turbidity"; Metric.value := "12"; Metric.unit := "NTU";
               Metric.status := "Bad" |};
            {| Metric.name := "Dissolved Oxygen"; Metric.value := "6.2"; Metric.unit := "mg/L";
               Metric.status := "Good" |};
            {| Metric.name := "E. Coli"; Metric.value := "4"; Metric.unit := "CFU";
               Metric.status := "Good" |} ].
Proof.
  assert (Hw : Substring "water" (toLowerCase "Waterborne Disease")
               \/ Substring "groundwater" (toLowerCase "Waterborne Disease")).
  { left. apply includes_spec. reflexivity. }
  assert (Hd : Substring "disease" (toLowerCase "Waterborne Disease")
               \/ Substring "hospital" (toLowerCase "Waterborne Disease")).
  { left. apply includes_spec. reflexivity. }
  split; [split; assumption|].
  exact (getMockAdvancedReport_water_priority 0.5 "Waterborne Disease"
           {| MockLocation.city := "Guwahati" |} Hw Hd).
Defined.

(** * Further properties of the service *)

(** ** Keyword matching *)

Lemma Substring_trans (a b c : string) :
  Substring a b -> Substring b c -> Substring a c.
Proof.
  intros [p1 [q1 ->]] [p2 [q2 ->]]. exists (p2 ++ p1), (q1 ++ q2).
  now rewrite !string_app_assoc.
Qed.

Lemma lower_ascii_idempotent (c : ascii) : lower_ascii (lower_ascii c) = lower_ascii c.
Proof. destruct c as [[] [] [] [] [] [] [] []]; reflexivity. Qed.

Lemma toLowerCase_idempotent (s : string) : toLowerCase (toLowerCase s) = toLowerCase s.
Proof.
  induction s as [|c s IH]; simpl; [reflexivity|].
  now rewrite lower_ascii_idempotent, IH.
Qed.

(** The tests of the four branches of the assistant, on the lower-cased
    query. *)
Lemma includes_any3 (q a b c : string) :
  (includes q a || includes q b || includes q c)%bool = true
  <-> Substring a q \/ Substring b q \/ Substring c q.
Proof. rewrite !orb_true_iff, !includes_spec. tauto. Qed.

Lemma includes_none3 (q a b c : string) :
  (includes q a || includes q b || includes q c)%bool = false
  <-> ~ Substring a q /\ ~ Substring b q /\ ~ Substring c q.
Proof. rewrite !orb_false_iff, !includes_false_spec. tauto. Qed.

Lemma includes_none2 (q a b : string) :
  (includes q a || includes q b)%bool = false
  <-> ~ Substring a q /\ ~ Substring b q.
Proof. rewrite !orb_false_iff, !includes_false_spec. tauto. Qed.

(** ** Ties in getTopStateSummary *)

Section FirstMaximum.
Context {A : Type} (compareFn : A -> A -> Z) (key : A -> Z).
Hypothesis compareFn_key : forall a b, compareFn a b = key b - key a.

(** An element that no later element exceeds stays in front of them. *)
Lemma Array_sort_keeps_head (top : A) (post : list A) :
  (forall x, In x post -> key x <= key top) ->
  exists rest, Array_sort compareFn (top :: post) = top :: rest.
Proof.
  intros Hpost. simpl.
  destruct (Array_sort compareFn post) as [|h t] eqn:E; simpl; [now eexists|].
  assert (Hh : In h post).
  { apply (Permutation_in _ (Permutation_sym (Array_sort_perm compareFn post))).
    rewrite E. now left. }
  rewrite compareFn_key.
  destruct (Z.leb_spec (key h - key top) 0) as [_ | Hgt]; [now eexists|].
  specialize (Hpost h Hh). lia.
Qed.

(** An element that is strictly smaller than the head of the sorted rest
    goes behind it. *)
Lemma Array_sort_passes_smaller (x top : A) (l rest : list A) :
  key x < key top ->
  Array_sort compareFn l = top :: rest ->
  exists rest', Array_sort compareFn (x :: l) = top :: rest'.
Proof.
  intros Hlt E. simpl. rewrite E. simpl. rewrite compareFn_key.
  destruct (Z.leb_spec (key top - key x) 0) as [Hle | _]; [lia | now eexists].
Qed.

Lemma Array_sort_first_maximum (pre post : list A) (top : A) :
  (forall x, In x pre -> key x < key top) ->
  (forall x, In x post -> key x <= key top) ->
  exists rest, Array_sort compareFn (pre ++ top :: post) = top :: rest.
Proof.
  intros Hpre Hpost. induction pre as [|x pre IH].
  - now apply Array_sort_keeps_head.
  - destruct IH as [rest E]; [intros y Hy; apply Hpre; now right|].
    apply (Array_sort_passes_smaller x top (pre ++ top :: post) rest); [|exact E].
    apply Hpre. now left.
Qed.

End FirstMaximum.

(** X1. Of the states that share the greatest total, the one that comes
    first in the array is named: when every state before [top] has a
    strictly smaller total and no state after it a greater one, the summary
    is the sentence of [top]. *)
Theorem getTopStateSummary_first_of_ties
    (pre post : list StateData.t) (top : StateData.t) :
  (forall x, In x pre -> StateData.totalAffected x < StateData.totalAffected top) ->
  (forall x, In x post -> StateData.totalAffected x <= StateData.totalAffected top) ->
  getTopStateSummary (pre ++ top :: post)
  = Normal (StateData.name top
            ++ " currently has the highest reported disease burden with "
            ++ Z_toString (StateData.totalAffected top) ++ " affected cases.").
Proof.
  intros Hpre Hpost.
  destruct (Array_sort_first_maximum byTotalAffectedDesc StateData.totalAffected
              byTotalAffectedDesc_key pre post top Hpre Hpost) as [rest E].
  unfold getTopStateSummary. rewrite E.
  destruct (length (pre ++ top :: post)%list =? 0)%nat eqn:L.
  - apply Nat.eqb_eq in L. rewrite length_app in L. simpl in L. lia.
  - reflexivity.
Qed.

Lemma getTopStateSummary_first_of_ties_witness :
  ((forall x, In x [assam] -> StateData.totalAffected x < StateData.totalAffected bihar)
   /\ (forall x, In x [kerala] -> StateData.totalAffected x <= StateData.totalAffected bihar))
  /\ getTopStateSummary ([assam] ++ bihar :: [kerala])
     = Normal (StateData.name bihar
               ++ " currently has the highest reported disease burden with "
               ++ Z_toString (StateData.totalAffected bihar) ++ " affected cases.").
Proof.
  assert (H1 : forall x, In x [assam] -> StateData.totalAffected x < StateData.totalAffected bihar).
  { intros x [<- | []]. simpl. lia. }
  assert (H2 : forall x, In x [kerala] -> StateData.totalAffected x <= StateData.totalAffected bihar).
  { intros x [<- | []]. simpl. lia. }
  split; [split; assumption|].
  exact (getTopStateSummary_first_of_ties [assam] [kerala] bihar H1 H2).
Defined.

(** ** The decision table of the assistant *)

Section AssistantBranches.
Context {fmt : NumberFormat}.

Lemma reply_water_branch (userQuery : string) (contextData : ContextData) :
  (includes (toLowerCase userQuery) "ph"
   || includes (toLowerCase userQuery) "safe range")%bool = false ->
  (includes (toLowerCase userQuery) "state"
   || includes (toLowerCase userQuery) "disease"
   || includes (toLowerCase userQuery) "cases")%bool = false ->
  (includes (toLowerCase userQuery) "water"
   || includes (toLowerCase userQuery) "quality"
   || includes (toLowerCase userQuery) "turbidity")%bool = true ->
  getOfflineAssistantReply userQuery contextData
  = getRecentWaterSummary (reports contextData).
Proof.
  intros H1 H2 H3. unfold getOfflineAssistantReply. cbv zeta. now rewrite H1, H2, H3.
Qed.

Lemma reply_fallback_branch (userQuery : string) (contextData : ContextData) :
  (includes (toLowerCase userQuery) "ph"
   || includes (toLowerCase userQuery) "safe range")%bool = false ->
  (includes (toLowerCase userQuery) "state"
   || includes (toLowerCase userQuery) "disease"
   || includes (toLowerCase userQuery) "cases")%bool = false ->
  (includes (toLowerCase userQuery) "water"
   || includes (toLowerCase userQuery) "quality"
   || includes (toLowerCase userQuery) "turbidity")%bool = false ->
  getOfflineAssistantReply userQuery contextData
  = (top <- getTopStateSummary (states contextData) ;;
     water <- getRecentWaterSummary (reports contextData) ;;
     Normal (offlineDisclaimer ++ " " ++ top ++ " " ++ water)).
Proof.
  intros H1 H2 H3. unfold getOfflineAssistantReply. cbv zeta. now rewrite H1, H2, H3.
Qed.

(** X2. A query whose lower-cased form contains "state", "disease" or
    "cases", and neither "ph" nor "safe range", is answered with the
    top-state summary, a space, and the recent-water summary, and the call
    does not throw, whatever the context (empty arrays included). *)
Theorem getOfflineAssistantReply_state_branch
    (userQuery : string) (contextData : ContextData) :
  ~ Substring "ph" (toLowerCase userQuery) ->
  ~ Substring "safe range" (toLowerCase userQuery) ->
  Substring "state" (toLowerCase userQuery)
  \/ Substring "disease" (toLowerCase userQuery)
  \/ Substring "cases" (toLowerCase userQuery) ->
  exists top water : string,
    getTopStateSummary (states contextData) = Normal top
    /\ getRecentWaterSummary (reports contextData) = Normal water
    /\ getOfflineAssistantReply userQuery contextData = Normal (top ++ " " ++ water).
Proof.
  intros Hp Hs Hk.
  destruct (getTopStateSummary_returns (states contextData)) as [top Ht].
  destruct (getRecentWaterSummary_returns (reports contextData)) as [water Hw].
  exists top, water. split; [assumption|]. split; [assumption|].
  rewrite reply_state_branch.
  - now rewrite Ht, Hw.
  - now apply includes_none2.
  - now apply includes_any3.
Qed.

(** X3. A query whose lower-cased form contains "water", "quality" or
    "turbidity" and none of "ph", "safe range", "state", "disease", "cases"
    is answered with the recent-water summary alone: the states are not
    consulted. *)
Theorem getOfflineAssistantReply_water_branch
    (userQuery : string) (contextData : ContextData) :
  ~ Substring "ph" (toLowerCase userQuery) ->
  ~ Substring "safe range" (toLowerCase userQuery) ->
  ~ Substring "state" (toLowerCase userQuery) ->
  ~ Substring "disease" (toLowerCase userQuery) ->
  ~ Substring "cases" (toLowerCase userQuery) ->
  Substring "water" (toLowerCase userQuery)
  \/ Substring "quality" (toLowerCase userQuery)
  \/ Substring "turbidity" (toLowerCase userQuery) ->
  (exists water : string,
     getRecentWaterSummary (reports contextData) = Normal water
     /\ getOfflineAssistantReply userQuery contextData = Normal water)
  /\ forall otherStates : list StateData.t,
       getOfflineAssistantReply userQuery
         {| states := otherStates; reports := reports contextData |}
       = getOfflineAssistantReply userQuery contextData.
Proof.
  intros Hp Hs H1 H2 H3 Hk.
  assert (B1 : (includes (toLowerCase userQuery) "ph"
                || includes (toLowerCase userQuery) "safe range")%bool = false)
    by now apply includes_none2.
  assert (B2 : (includes (toLowerCase userQuery) "state"
                || includes (toLowerCase userQuery) "disease"
                || includes (toLowerCase userQuery) "cases")%bool = false)
    by now apply includes_none3.
  assert (B3 : (includes (toLowerCase userQuery) "water"
                || includes (toLowerCase userQuery) "quality"
                || includes (toLowerCase userQuery) "turbidity")%bool = true)
    by now apply includes_any3.
  split.
  - destruct (getRecentWaterSummary_returns (reports contextData)) as [water Hw].
    exists water. split; [assumption|]. now rewrite reply_water_branch.
  - intros otherStates. now rewrite !reply_water_branch.
Qed.

(** X4. A query whose lower-cased form contains none of the eight keywords
    is answered with the offline notice followed by the two summaries, each
    after one space. *)
Theorem getOfflineAssistantReply_fallback_branch
    (userQuery : string) (contextData : ContextData) :
  ~ Substring "ph" (toLowerCase userQuery) ->
  ~ Substring "safe range" (toLowerCase userQuery) ->
  ~ Substring "state" (toLowerCase userQuery) ->
  ~ Substring "disease" (toLowerCase userQuery) ->
  ~ Substring "cases" (toLowerCase userQuery) ->
  ~ Substring "water" (toLowerCase userQuery) ->
  ~ Substring "quality" (toLowerCase userQuery) ->
  ~ Substring "turbidity" (toLowerCase userQuery) ->
  exists top water : string,
    getTopStateSummary (states contextData) = Normal top
    /\ getRecentWaterSummary (reports contextData) = Normal water
    /\ getOfflineAssistantReply userQuery contextData
       = Normal ("I am running in offline mode without external AI APIs. "
                 ++ top ++ " " ++ water).
Proof.
  intros Hp Hs H1 H2 H3 H4 H5 H6.
  destruct (getTopStateSummary_returns (states contextData)) as [top Ht].
  destruct (getRecentWaterSummary_returns (reports contextData)) as [water Hw].
  exists top, water. split; [assumption|]. split; [assumption|].
  rewrite reply_fallback_branch.
  - now rewrite Ht, Hw.
  - now apply includes_none2.
  - now apply includes_none3.
  - now apply includes_none3.
Qed.

(** X5. Matching is by containment, not by word: a query whose lower-cased
    form contains a word that contains "ph" ("typhoid", "phone", "graph")
    is answered with the pH sentence, whatever else it asks. *)
Theorem getOfflineAssistantReply_word_containing_ph
    (word userQuery : string) (contextData : ContextData) :
  Substring "ph" word ->
  Substring word (toLowerCase userQuery) ->
  getOfflineAssistantReply userQuery contextData
  = Normal "The safe pH range for drinking water is 6.5 to 8.5.".
Proof.
  intros Hw Hq. apply reply_pH_branch. apply orb_true_iff. left.
  apply includes_spec. exact (Substring_trans _ _ _ Hw Hq).
Qed.

(** X6. The letter case of the query does not matter: a query and its
    lower-cased form get the same reply. *)
Theorem getOfflineAssistantReply_case_insensitive
    (userQuery : string) (contextData : ContextData) :
  getOfflineAssistantReply (toLowerCase userQuery) contextData
  = getOfflineAssistantReply userQuery contextData.
Proof.
  unfold getOfflineAssistantReply. cbv zeta. now rewrite toLowerCase_idempotent.
Qed.

(** X7. On a context with no state and no report every query is answered,
    without an exception, with one of four fixed texts. *)
Theorem getOfflineAssistantReply_empty_context (userQuery : string) :
  let reply := getOfflineAssistantReply userQuery {| states := []; reports := [] |} in
  reply = Normal "The safe pH range for drinking water is 6.5 to 8.5."
  \/ reply = Normal "No state disease data is available yet. No recent water quality reports are available."
  \/ reply = Normal "No recent water quality reports are available."
  \/ reply = Normal "I am running in offline mode without external AI APIs. No state disease data is available yet. No recent water quality reports are available.".
Proof.
  unfold getOfflineAssistantReply. cbv zeta.
  destruct (includes (toLowerCase userQuery) "ph"
            || includes (toLowerCase userQuery) "safe range")%bool; [now left|].
  destruct (includes (toLowerCase userQuery) "state"
            || includes (toLowerCase userQuery) "disease"
            || includes (toLowerCase userQuery) "cases")%bool; [right; now left|].
  destruct (includes (toLowerCase userQuery) "water"
            || includes (toLowerCase userQuery) "quality"
            || includes (toLowerCase userQuery) "turbidity")%bool;
    [right; right; now left | right; right; now right].
Qed.

(** X8. Only the last report counts: the reports before it change neither
    the recent-water summary nor any reply of the assistant. *)
Theorem only_the_last_report_counts
    (userQuery : string) (someStates : list StateData.t)
    (earlier : list WaterQualityReport.t) (latest : WaterQualityReport.t) :
  getRecentWaterSummary (earlier ++ [latest]) = getRecentWaterSummary [latest]
  /\ getOfflineAssistantReply userQuery
       {| states := someStates; reports := earlier ++ [latest] |}
     = getOfflineAssistantReply userQuery {| states := someStates; reports := [latest] |}.
Proof.
  assert (E : getRecentWaterSummary (earlier ++ [latest]) = getRecentWaterSummary [latest]).
  { rewrite getRecentWaterSummary_snoc. symmetry.
    exact (getRecentWaterSummary_snoc [] latest). }
  split; [exact E|].
  unfold getOfflineAssistantReply. cbv zeta. cbn [states reports]. now rewrite E.
Qed.

End AssistantBranches.

(** ** generateHealthReport and suggestPreventiveMeasures *)

(** X9. The top concern is the first entry of the disease list, whatever
    follows it: the entries after the first one do not change the report
    (the list is not searched for the greatest count). *)
Theorem generateHealthReport_reads_first_entry_only
    (stateName : string) (total : Z) (first : Disease.t) (others : list Disease.t) :
  generateHealthReport
    {| StateData.name := stateName; StateData.totalAffected := total;
       StateData.diseases := first :: others |}
  = generateHealthReport
      {| StateData.name := stateName; StateData.totalAffected := total;
         StateData.diseases := [first] |}.
Proof. reflexivity. Qed.

(** X10. A name whose lower-cased form contains "typhoid" and not "cholera"
    gets the three typhoid measures, in order. *)
Theorem suggestPreventiveMeasures_typhoid_branch (diseaseName : string) :
  ~ Substring "cholera" (toLowerCase diseaseName) ->
  Substring "typhoid" (toLowerCase diseaseName) ->
  suggestPreventiveMeasures diseaseName
  = Fulfilled ["Drink safe water only";
               "Avoid raw cut fruits from unknown vendors";
               "Complete prescribed antibiotics from a doctor"].
Proof.
  intros Hc Ht. apply includes_false_spec in Hc. apply includes_spec in Ht.
  unfold suggestPreventiveMeasures. cbv zeta. now rewrite Hc, Ht.
Qed.

(** ** The buckets and the score of the simulated report *)

Lemma Qfloor_ge_iff (x : Q) (k : Z) : k <= Qfloor x <-> (inject_Z k <= x)%Q.
Proof.
  split; intros H.
  - apply Qle_trans with (inject_Z (Qfloor x)); [now rewrite <- Zle_Qle | apply Qfloor_le].
  - rewrite <- (Qfloor_Z k). now apply Qfloor_resp_le.
Qed.

Lemma groundwater_contains_water : Substring "water" "groundwater".
Proof. now exists "ground", "". Qed.

Lemma mockIsWater_false (reportType : string) :
  ~ Substring "water" (toLowerCase reportType) -> mockIsWater reportType = false.
Proof.
  intros H. unfold mockIsWater. apply orb_false_iff.
  split; apply includes_false_spec; [assumption|].
  intros G. apply H. exact (Substring_trans _ _ _ groundwater_contains_water G).
Qed.

(** X11. The report type is in the water bucket exactly when its
    lower-cased form contains "water": the second test, for "groundwater",
    never decides. *)
Theorem mockIsWater_iff_contains_water (reportType : string) :
  mockIsWater reportType = true <-> Substring "water" (toLowerCase reportType).
Proof.
  split.
  - unfold mockIsWater. rewrite orb_true_iff, !includes_spec.
    intros [H | H]; [assumption|].
    exact (Substring_trans _ _ _ groundwater_contains_water H).
  - intros H. unfold mockIsWater. apply orb_true_iff. left. now apply includes_spec.
Qed.

(** X12. With exact arithmetic the report is "Safe" exactly for the draws
    from 0.65 on: the score exceeds 75 if and only if 0.65 <= rnd. *)
Theorem getMockAdvancedReport_safe_from_065
    (rnd : Q) (reportType : string) (location : MockLocation.t) :
  let report := getMockAdvancedReport rnd reportType location in
  (75 < Report.score report <-> (0.65 <= rnd)%Q)
  /\ (Report.overall_status report = "Safe" <-> (0.65 <= rnd)%Q)
  /\ (Report.overall_status report = "Caution" <-> (rnd < 0.65)%Q).
Proof.
  cbv zeta. cbn [getMockAdvancedReport Report.score Report.overall_status].
  assert (S : 75 < mockScore rnd <-> (0.65 <= rnd)%Q).
  { unfold mockScore.
    assert (E : 75 < Qfloor (rnd * 40) + 50 <-> 26 <= Qfloor (rnd * 40)) by lia.
    rewrite E, Qfloor_ge_iff. change (inject_Z 26) with 26%Q. split; intros H; lra. }
  split; [exact S|].
  destruct (Z.ltb_spec 75 (mockScore rnd)) as [H | H].
  - apply S in H. split; split; intros; try reflexivity; try assumption; try discriminate.
    lra.
  - assert (N : ~ (0.65 <= rnd)%Q) by (intros X; apply S in X; lia).
    split; split; intros; try reflexivity; try discriminate; try contradiction.
    apply Qnot_le_lt. exact N.
Qed.


(** X14. The draw counts through the score only. Title, key metrics,
    alerts, recommendations, coordinates and the simulation flag are the
    same for every draw; two draws on the same side of the threshold give
    the same status, verdict and summary; two draws with the same score give
    the same report. *)
Theorem getMockAdvancedReport_draw_only_through_score
    (rnd1 rnd2 : Q) (reportType : string) (location : MockLocation.t) :
  let report1 := getMockAdvancedReport rnd1 reportType location in
  let report2 := getMockAdvancedReport rnd2 reportType location in
  (Report.title report1 = Report.title report2
   /\ Report.key_metrics report1 = Report.key_metrics report2
   /\ Report.alerts report1 = Report.alerts report2
   /\ Report.recommendations report1 = Report.recommendations report2
   /\ Report.coordinates report1 = Report.coordinates report2
   /\ Report.is_simulated report1 = Report.is_simulated report2)
  /\ ((75 <? Report.score report1) = (75 <? Report.score report2) ->
      Report.overall_status report1 = Report.overall_status report2
      /\ Report.verdict report1 = Report.verdict report2
      /\ Report.summary report1 = Report.summary report2)
  /\ (Report.score report1 = Report.score report2 -> report1 = report2).
Proof.
  cbv zeta. split; [repeat split|]. split.
  - cbn [getMockAdvancedReport Report.score Report.overall_status Report.verdict
         Report.summary]. intros ->. repeat split.
  - cbn [getMockAdvancedReport Report.score]. intros E.
    unfold getMockAdvancedReport. now rewrite E.
Qed.

(** X15. A report type whose lower-cased form contains "disease" or
    "hospital" and not "water" is in the disease bucket: its two verdicts,
    its summary, which is the same on both sides of the threshold, and its
    four key metrics. *)
Theorem getMockAdvancedReport_disease_bucket
    (rnd : Q) (reportType : string) (location : MockLocation.t) :
  ~ Substring "water" (toLowerCase reportType) ->
  Substring "disease" (toLowerCase reportType)
  \/ Substring "hospital" (toLowerCase reportType) ->
  let report := getMockAdvancedReport rnd reportType location in
  Report.verdict report
  = (if 75 <? Report.score report then "Low Health Risk" else "Elevated Viral Risk")
  /\ Report.summary report
     = "This is a simulated report for " ++ MockLocation.city location
       ++ " because the AI service is currently unreachable (likely Free Tier rate limit). Data suggests seasonal variations in local health data."
  /\ Report.key_metrics report
     = [ {| Metric.name := "Daily OPD"; Metric.value := "145"; Metric.unit := "patients";
            Metric.status := "Neutral" |};
         {| Metric.name := "Viral Fever"; Metric.value := "45"; Metric.unit := "cases";
            Metric.status := "Neutral" |};
         {| Metric.name := "Bed Occupancy"; Metric.value := "68"; Metric.unit := "%";
            Metric.status := "Good" |};
         {| Metric.name := "Critical Cases"; Metric.value := "2"; Metric.unit := "cases";
            Metric.status := "Good" |} ].
Proof.
  intros Hw Hd report. subst report.
  assert (W : mockIsWater reportType = false) by now apply mockIsWater_false.
  assert (D : mockIsDisease reportType = true).
  { unfold mockIsDisease. apply orb_true_iff.
    destruct Hd as [H | H]; [left | right]; now apply includes_spec. }
  unfold getMockAdvancedReport. cbv zeta. rewrite W, D.
  cbn [Report.verdict Report.summary Report.key_metrics Report.score].
  repeat split.
Qed.

(** X16. A report type whose lower-cased form contains none of "water",
    "disease" and "hospital" is in the third bucket: its two verdicts, its
    summary and its four key metrics. *)
Theorem getMockAdvancedReport_other_bucket
    (rnd : Q) (reportType : string) (location : MockLocation.t) :
  ~ Substring "water" (toLowerCase reportType) ->
  ~ Substring "disease" (toLowerCase reportType) ->
  ~ Substring "hospital" (toLowerCase reportType) ->
  let report := getMockAdvancedReport rnd reportType location in
  Report.verdict report
  = (if 75 <? Report.score report then "Stable Conditions" else "Caution Advised")
  /\ Report.summary report
     = "This is a simulated report for " ++ MockLocation.city location
       ++ " because the AI service is currently unreachable (likely Free Tier rate limit). Data suggests nominal environmental parameters."
  /\ Report.key_metrics report
     = [ {| Metric.name := "Larval Density"; Metric.value := "12"; Metric.unit := "per dip";
            Metric.status := "Neutral" |};
         {| Metric.name := "Fogging Coverage"; Metric.value := "85"; Metric.unit := "%";
            Metric.status := "Neutral" |};
         {| Metric.name := "Stagnant Water"; Metric.value := "Low"; Metric.unit := "risk";
            Metric.status := "Good" |};
         {| Metric.name := "Vector Index"; Metric.value := "0.4"; Metric.unit := "";
            Metric.status := "Good" |} ].
Proof.
  intros Hw Hd Hh report. subst report.
  assert (W : mockIsWater reportType = false) by now apply mockIsWater_false.
  assert (D : mockIsDisease reportType = false).
  { unfold mockIsDisease. apply orb_false_iff. split; now apply includes_false_spec. }
  unfold getMockAdvancedReport. cbv zeta. rewrite W, D.
  cbn [Report.verdict Report.summary Report.key_metrics Report.score].
  repeat split.
Qed.

(** ** Effects of the exported calls on the store *)

Section StoreEffects.
Context {fmt : NumberFormat}.

(** The store after the stateful assistant: the store before it, or that
    store with the sorted copy of the states after its arrays. *)
Lemma Stateful_getOfflineAssistantReply_run
    (userQuery : string) (contextData : ContextRefs) (st : Store)
    (l : list StateData.t) (r : list WaterQualityReport.t) :
  nth_error (stateArrays st) (statesRef contextData) = Some l ->
  nth_error (reportArrays st) (reportsRef contextData) = Some r ->
  exists st',
    Stateful.getOfflineAssistantReply userQuery contextData st
    = (getOfflineAssistantReply userQuery {| states := l; reports := r |}, st')
    /\ console st' = console st
    /\ reportArrays st' = reportArrays st
    /\ (stateArrays st' = stateArrays st
        \/ stateArrays st' = (stateArrays st ++ [Array_sort byTotalAffectedDesc l])%list)
    /\ (Substring "ph" (toLowerCase userQuery) -> st' = st).
Proof.
  intros El Er.
  set (st1 := if (length l =? 0)%nat then st
              else {| stateArrays := stateArrays st ++ [Array_sort byTotalAffectedDesc l];
                      reportArrays := reportArrays st;
                      console := console st |}).
  assert (C1 : console st1 = console st) by (unfold st1; now destruct (length l =? 0)%nat).
  assert (R1 : reportArrays st1 = reportArrays st)
    by (unfold st1; now destruct (length l =? 0)%nat).
  assert (S1 : stateArrays st1 = stateArrays st
               \/ stateArrays st1 = (stateArrays st ++ [Array_sort byTotalAffectedDesc l])%list)
    by (unfold st1; destruct (length l =? 0)%nat; auto).
  assert (Top : Stateful.getTopStateSummary (statesRef contextData) st
                = (getTopStateSummary l, st1))
    by now apply Stateful_getTopStateSummary_run.
  assert (Water : forall s, reportArrays s = reportArrays st ->
                    Stateful.getRecentWaterSummary (reportsRef contextData) s
                    = (getRecentWaterSummary r, s)).
  { intros s H. apply Stateful_getRecentWaterSummary_run. now rewrite H. }
  unfold Stateful.getOfflineAssistantReply, getOfflineAssistantReply. cbv zeta.
  cbn [states reports].
  destruct (includes (toLowerCase userQuery) "ph") eqn:Bph.
  { exists st. cbn [orb]. repeat split; auto. }
  assert (NoPh : Substring "ph" (toLowerCase userQuery) -> False).
  { intros H. apply includes_spec in H. congruence. }
  cbn [orb].
  destruct (includes (toLowerCase userQuery) "safe range").
  { exists st. repeat split; auto. }
  destruct (includes (toLowerCase userQuery) "state"
            || includes (toLowerCase userQuery) "disease"
            || includes (toLowerCase userQuery) "cases")%bool.
  { exists st1. unfold bindE. rewrite Top.
    destruct (getTopStateSummary l) as [top | e].
    - rewrite (Water st1 R1). cbn [bind].
      destruct (getRecentWaterSummary r); repeat split; auto; intros H; now elim NoPh.
    - repeat split; auto. intros H; now elim NoPh. }
  destruct (includes (toLowerCase userQuery) "water"
            || includes (toLowerCase userQuery) "quality"
            || includes (toLowerCase userQuery) "turbidity")%bool.
  { exists st. rewrite (Water st eq_refl). repeat split; auto. }
  exists st1. unfold bindE. rewrite Top.
  destruct (getTopStateSummary l) as [top | e].
  - rewrite (Water st1 R1). cbn [bind].
    destruct (getRecentWaterSummary r); repeat split; auto; intros H; now elim NoPh.
  - repeat split; auto. intros H; now elim NoPh.
Qed.

(** X17. A call of [askJalAssistant] on the arrays of a store is fulfilled
    with what the function computes from their elements; it writes nothing
    to the console, leaves the arrays of reports as they are and allocates
    at most one array, the sorted copy of the states; a query that mentions
    "ph" allocates nothing. *)
Theorem Stateful_askJalAssistant_effect
    (userQuery languageCode : string) (contextData : ContextRefs) (st : Store)
    (l : list StateData.t) (r : list WaterQualityReport.t) :
  nth_error (stateArrays st) (statesRef contextData) = Some l ->
  nth_error (reportArrays st) (reportsRef contextData) = Some r ->
  let run := Stateful.askJalAssistant userQuery contextData languageCode st in
  fst run = Normal (askJalAssistant userQuery {| states := l; reports := r |} languageCode)
  /\ console (snd run) = console st
  /\ reportArrays (snd run) = reportArrays st
  /\ (stateArrays (snd run) = stateArrays st
      \/ stateArrays (snd run)
         = (stateArrays st ++ [Array_sort byTotalAffectedDesc l])%list)
  /\ (Substring "ph" (toLowerCase userQuery) -> snd run = st).
Proof.
  intros El Er run. subst run.
  destruct (Stateful_getOfflineAssistantReply_run userQuery contextData st l r El Er)
    as [st' [Run [Hc [Hr [Hs Hph]]]]].
  unfold Stateful.askJalAssistant, Stateful.askJalAssistantWithVoice,
    askJalAssistant, askJalAssistantWithVoice, asyncE, bindE, liftC.
  rewrite Run.
  destruct (getOfflineAssistantReply userQuery {| states := l; reports := r |})
    as [reply | e]; simpl; repeat split; auto.
Qed.

(** X18. [getAdvancedReport] writes one line to the console, the notice
    with the report type, the city and the state, leaves every array as it
    is, and is fulfilled with the report of [getMockAdvancedReport] for the
    city; the state, the date and the time of the location do not reach the
    report. *)
Theorem Stateful_getAdvancedReport_effect
    (rnd : Q) (reportType : string) (location : Location.t) (st : Store) :
  let run := Stateful.getAdvancedReport rnd reportType location st in
  fst run
  = Normal (Fulfilled (getMockAdvancedReport rnd reportType
                         {| MockLocation.city := Location.city location |}))
  /\ console (snd run)
     = (console st
        ++ [("Offline mode active. Returning simulated " ++ reportType ++ " report for "
             ++ Location.city location ++ ", " ++ Location.state location ++ ".")%string])%list
  /\ stateArrays (snd run) = stateArrays st
  /\ reportArrays (snd run) = reportArrays st
  /\ forall otherState otherDate : string, forall otherTime : option string,
       fst (Stateful.getAdvancedReport rnd reportType
              {| Location.state := otherState; Location.city := Location.city location;
                 Location.date := otherDate; Location.time := otherTime |} st)
       = fst run.
Proof.
  cbv zeta. repeat split.
Qed.

End StoreEffects.

(** ** Instances of the further properties *)

Lemma getOfflineAssistantReply_state_branch_witness :
  (~ Substring "ph" (toLowerCase "How many CASES in my State?")
   /\ ~ Substring "safe range" (toLowerCase "How many CASES in my State?")
   /\ (Substring "state" (toLowerCase "How many CASES in my State?")
       \/ Substring "disease" (toLowerCase "How many CASES in my State?")
       \/ Substring "cases" (toLowerCase "How many CASES in my State?")))
  /\ exists top water : string,
       getTopStateSummary (states sampleContext) = Normal top
       /\ getRecentWaterSummary (fmt := decimal_format) (reports sampleContext) = Normal water
       /\ getOfflineAssistantReply (fmt := decimal_format) "How many CASES in my State?"
            sampleContext
          = Normal (top ++ " " ++ water).
Proof.
  assert (H1 : ~ Substring "ph" (toLowerCase "How many CASES in my State?"))
    by (apply includes_false_spec; reflexivity).
  assert (H2 : ~ Substring "safe range" (toLowerCase "How many CASES in my State?"))
    by (apply includes_false_spec; reflexivity).
  assert (H3 : Substring "state" (toLowerCase "How many CASES in my State?")
               \/ Substring "disease" (toLowerCase "How many CASES in my State?")
               \/ Substring "cases" (toLowerCase "How many CASES in my State?"))
    by (left; apply includes_spec; reflexivity).
  split; [repeat split; assumption|].
  exact (getOfflineAssistantReply_state_branch (fmt := decimal_format)
           "How many CASES in my State?" sampleContext H1 H2 H3).
Defined.

Lemma getOfflineAssistantReply_water_branch_witness :
  (~ Substring "ph" (toLowerCase "Is the groundwater quality fine?")
   /\ ~ Substring "safe range" (toLowerCase "Is the groundwater quality fine?")
   /\ ~ Substring "state" (toLowerCase "Is the groundwater quality fine?")
   /\ ~ Substring "disease" (toLowerCase "Is the groundwater quality fine?")
   /\ ~ Substring "cases" (toLowerCase "Is the groundwater quality fine?")
   /\ (Substring "water" (toLowerCase "Is the groundwater quality fine?")
       \/ Substring "quality" (toLowerCase "Is the groundwater quality fine?")
       \/ Substring "turbidity" (toLowerCase "Is the groundwater quality fine?")))
  /\ (exists water : string,
        getRecentWaterSummary (fmt := decimal_format) (reports sampleContext) = Normal water
        /\ getOfflineAssistantReply (fmt := decimal_format) "Is the groundwater quality fine?"
             sampleContext
           = Normal water)
  /\ forall otherStates : list StateData.t,
       getOfflineAssistantReply (fmt := decimal_format) "Is the groundwater quality fine?"
         {| states := otherStates; reports := reports sampleContext |}
       = getOfflineAssistantReply (fmt := decimal_format) "Is the groundwater quality fine?"
           sampleContext.
Proof.
  assert (H1 : ~ Substring "ph" (toLowerCase "Is the groundwater quality fine?"))
    by (apply includes_false_spec; reflexivity).
  assert (H2 : ~ Substring "safe range" (toLowerCase "Is the groundwater quality fine?"))
    by (apply includes_false_spec; reflexivity).
  assert (H3 : ~ Substring "state" (toLowerCase "Is the groundwater quality fine?"))
    by (apply includes_false_spec; reflexivity).
  assert (H4 : ~ Substring "disease" (toLowerCase "Is the groundwater quality fine?"))
    by (apply includes_false_spec; reflexivity).
  assert (H5 : ~ Substring "cases" (toLowerCase "Is the groundwater quality fine?"))
    by (apply includes_false_spec; reflexivity).
  assert (H6 : Substring "water" (toLowerCase "Is the groundwater quality fine?")
               \/ Substring "quality" (toLowerCase "Is the groundwater quality fine?")
               \/ Substring "turbidity" (toLowerCase "Is the groundwater quality fine?"))
    by (left; apply includes_spec; reflexivity).
  split; [repeat split; assumption|].
  exact (getOfflineAssistantReply_water_branch (fmt := decimal_format)
           "Is the groundwater quality fine?" sampleContext H1 H2 H3 H4 H5 H6).
Defined.

Lemma getOfflineAssistantReply_fallback_branch_witness :
  (~ Substring "ph" (toLowerCase "Hello there")
   /\ ~ Substring "safe range" (toLowerCase "Hello there")
   /\ ~ Substring "state" (toLowerCase "Hello there")
   /\ ~ Substring "disease" (toLowerCase "Hello there")
   /\ ~ Substring "cases" (toLowerCase "Hello there")
   /\ ~ Substring "water" (toLowerCase "Hello there")
   /\ ~ Substring "quality" (toLowerCase "Hello there")
   /\ ~ Substring "turbidity" (toLowerCase "Hello there"))
  /\ exists top water : string,
       getTopStateSummary (states sampleContext) = Normal top
       /\ getRecentWaterSummary (fmt := decimal_format) (reports sampleContext) = Normal water
       /\ getOfflineAssistantReply (fmt := decimal_format) "Hello there" sampleContext
          = Normal ("I am running in offline mode without external AI APIs. "
                    ++ top ++ " " ++ water).
Proof.
  assert (H1 : ~ Substring "ph" (toLowerCase "Hello there"))
    by (apply includes_false_spec; reflexivity).
  assert (H2 : ~ Substring "safe range" (toLowerCase "Hello there"))
    by (apply includes_false_spec; reflexivity).
  assert (H3 : ~ Substring "state" (toLowerCase "Hello there"))
    by (apply includes_false_spec; reflexivity).
  assert (H4 : ~ Substring "disease" (toLowerCase "Hello there"))
    by (apply includes_false_spec; reflexivity).
  assert (H5 : ~ Substring "cases" (toLowerCase "Hello there"))
    by (apply includes_false_spec; reflexivity).
  assert (H6 : ~ Substring "water" (toLowerCase "Hello there"))
    by (apply includes_false_spec; reflexivity).
  assert (H7 : ~ Substring "quality" (toLowerCase "Hello there"))
    by (apply includes_false_spec; reflexivity).
  assert (H8 : ~ Substring "turbidity" (toLowerCase "Hello there"))
    by (apply includes_false_spec; reflexivity).
  split; [repeat split; assumption|].
  exact (getOfflineAssistantReply_fallback_branch (fmt := decimal_format)
           "Hello there" sampleContext H1 H2 H3 H4 H5 H6 H7 H8).
Defined.

Lemma getOfflineAssistantReply_word_containing_ph_witness :
  (Substring "ph" "typhoid"
   /\ Substring "typhoid" (toLowerCase "Typhoid cases in my state"))
  /\ getOfflineAssistantReply (fmt := decimal_format) "Typhoid cases in my state"
       sampleContext
     = Normal "The safe pH range for drinking water is 6.5 to 8.5.".
Proof.
  assert (H1 : Substring "ph" "typhoid") by (apply includes_spec; reflexivity).
  assert (H2 : Substring "typhoid" (toLowerCase "Typhoid cases in my state"))
    by (apply includes_spec; reflexivity).
  split; [split; assumption|].
  exact (getOfflineAssistantReply_word_containing_ph (fmt := decimal_format)
           "typhoid" "Typhoid cases in my state" sampleContext H1 H2).
Defined.

Lemma suggestPreventiveMeasures_typhoid_branch_witness :
  (~ Substring "cholera" (toLowerCase "Typhoid Fever")
   /\ Substring "typhoid" (toLowerCase "Typhoid Fever"))
  /\ suggestPreventiveMeasures "Typhoid Fever"
     = Fulfilled ["Drink safe water only";
                  "Avoid raw cut fruits from unknown vendors";
                  "Complete prescribed antibiotics from a doctor"].
Proof.
  assert (H1 : ~ Substring "cholera" (toLowerCase "Typhoid Fever"))
    by (apply includes_false_spec; reflexivity).
  assert (H2 : Substring "typhoid" (toLowerCase "Typhoid Fever"))
    by (apply includes_spec; reflexivity).
  split; [split; assumption|].
  exact (suggestPreventiveMeasures_typhoid_branch "Typhoid Fever" H1 H2).
Defined.

Lemma getMockAdvancedReport_disease_bucket_witness :
  (~ Substring "water" (toLowerCase "Hospital Load")
   /\ (Substring "disease" (toLowerCase "Hospital Load")
       \/ Substring "hospital" (toLowerCase "Hospital Load")))
  /\ let report := getMockAdvancedReport 0.9 "Hospital Load" {| MockLocation.city := "Patna" |} in
     Report.verdict report
     = (if 75 <? Report.score report then "Low Health Risk" else "Elevated Viral Risk")
     /\ Report.summary report
        = "This is a simulated report for " ++ "Patna"
          ++ " because the AI service is currently unreachable (likely Free Tier rate limit). Data suggests seasonal variations in local health data."
     /\ Report.key_metrics report
        = [ {| Metric.name := "Daily OPD"; Metric.value := "145"; Metric.unit := "patients";
               Metric.status := "Neutral" |};
            {| Metric.name := "Viral Fever"; Metric.value := "45"; Metric.unit := "cases";
               Metric.status := "Neutral" |};
            {| Metric.name := "Bed Occupancy"; Metric.value := "68"; Metric.unit := "%";
               Metric.status := "Good" |};
            {| Metric.name := "Critical Cases"; Metric.value := "2"; Metric.unit := "cases";
               Metric.status := "Good" |} ].
Proof.
  assert (H1 : ~ Substring "water" (toLowerCase "Hospital Load"))
    by (apply includes_false_spec; reflexivity).
  assert (H2 : Substring "disease" (toLowerCase "Hospital Load")
               \/ Substring "hospital" (toLowerCase "Hospital Load"))
    by (right; apply includes_spec; reflexivity).
  split; [split; assumption|].
  exact (getMockAdvancedReport_disease_bucket 0.9 "Hospital Load"
           {| MockLocation.city := "Patna" |} H1 H2).
Defined.

Lemma getMockAdvancedReport_other_bucket_witness :
  (~ Substring "water" (toLowerCase "Vector Survey")
   /\ ~ Substring "disease" (toLowerCase "Vector Survey")
   /\ ~ Substring "hospital" (toLowerCase "Vector Survey"))
  /\ let report := getMockAdvancedReport 0.2 "Vector Survey" {| MockLocation.city := "Patna" |} in
     Report.verdict report
     = (if 75 <? Report.score report then "Stable Conditions" else "Caution Advised")
     /\ Report.summary report
        = "This is a simulated report for " ++ "Patna"
          ++ " because the AI service is currently unreachable (likely Free Tier rate limit). Data suggests nominal environmental parameters."
     /\ Report.key_metrics report
        = [ {| Metric.name := "Larval Density"; Metric.value := "12"; Metric.unit := "per dip";
               Metric.status := "Neutral" |};
            {| Metric.name := "Fogging Coverage"; Metric.value := "85"; Metric.unit := "%";
               Metric.status := "Neutral" |};
            {| Metric.name := "Stagnant Water"; Metric.value := "Low"; Metric.unit := "risk";
               Metric.status := "Good" |};
            {| Metric.name := "Vector Index"; Metric.value := "0.4"; Metric.unit := "";
               Metric.status := "Good" |} ].
Proof.
  assert (H1 : ~ Substring "water" (toLowerCase "Vector Survey"))
    by (apply includes_false_spec; reflexivity).
  assert (H2 : ~ Substring "disease" (toLowerCase "Vector Survey"))
    by (apply includes_false_spec; reflexivity).
  assert (H3 : ~ Substring "hospital" (toLowerCase "Vector Survey"))
    by (apply includes_false_spec; reflexivity).
  split; [repeat split; assumption|].
  exact (getMockAdvancedReport_other_bucket 0.2 "Vector Survey"
           {| MockLocation.city := "Patna" |} H1 H2 H3).
Defined.

Lemma Stateful_askJalAssistant_effect_witness :
  (nth_error (stateArrays sampleStore) 0 = Some sampleStates
   /\ nth_error (reportArrays sampleStore) 0 = Some [wellReport; riverReport])
  /\ let run :=
       Stateful.askJalAssistant (fmt := decimal_format) "disease burden"
         {| statesRef := 0%nat; reportsRef := 0%nat |} "en" sampleStore in
     fst run
     = Normal (askJalAssistant (fmt := decimal_format) "disease burden"
                 {| states := sampleStates; reports := [wellReport; riverReport] |} "en")
     /\ console (snd run) = console sampleStore
     /\ reportArrays (snd run) = reportArrays sampleStore
     /\ (stateArrays (snd run) = stateArrays sampleStore
         \/ stateArrays (snd run)
            = (stateArrays sampleStore ++ [Array_sort byTotalAffectedDesc sampleStates])%list)
     /\ (Substring "ph" (toLowerCase "disease burden") -> snd run = sampleStore).
Proof.
  assert (H1 : nth_error (stateArrays sampleStore) 0 = Some sampleStates) by reflexivity.
  assert (H2 : nth_error (reportArrays sampleStore) 0 = Some [wellReport; riverReport])
    by reflexivity.
  split; [split; assumption|].
  exact (Stateful_askJalAssistant_effect (fmt := decimal_format) "disease burden" "en"
           {| statesRef := 0%nat; reportsRef := 0%nat |} sampleStore
           sampleStates [wellReport; riverReport] H1 H2).
Defined.
